(** * crypto_dashboard.py: a shallow embedding of the price dashboard

    The development follows the layout of the Python module: the values
    that [response.json()] can hand back, the string and number
    formatting used by the f-strings, [Config], [Colors], the client
    [CoinGeckoAPI.fetch_prices], and the dashboard with
    [format_price_change], [display] and [run], and finally [main].

    Effects are explicit.  Everything the program does to the outside
    world (clearing the screen, printing, logging, the HTTP request, the
    sleep, closing the session) is an [event] appended to a trace, and
    everything the outside world decides (what the request yields, what
    the clock shows, whether Ctrl+C arrives) is an input of the cycle. *)

From Stdlib Require Import ZArith String Ascii List Lia.
From Stdlib Require Import Floats.SpecFloat.
From stdpp Require Import gmap strings list pretty.
From Stdlib Require Import QArith.Qabs.

#[local] Set Warnings "-register-all".
#[local] Open Scope string_scope.
#[local] Open Scope Z_scope.
#[local] Open Scope list_scope.

(** ** Python values

    The objects that the [json] module builds: [None], booleans,
    integers of any size, binary64 floats (the [json] module also accepts
    [NaN] and [Infinity], and overlong literals give infinities), strings,
    lists and dicts with string keys. *)

Inductive pyval :=
| PNone
| PBool (b : bool)
| PInt (z : Z)
| PFloat (f : spec_float)
| PStr (s : string)
| PList (l : list pyval)
| PDict (d : gmap string pyval).

(** [bool(v)]: the test behind [if prices:]. *)
Definition truthy (v : pyval) : bool :=
  match v with
  | PNone => false
  | PBool b => b
  | PInt z => negb (z =? 0)
  | PFloat (S754_zero _) => false
  | PFloat _ => true
  | PStr s => negb (String.eqb s "")
  | PList l => match l with [] => false | _ => true end
  | PDict d => negb (bool_decide (d = ∅))
  end.

(** ** Exceptions and results *)

Inductive exn :=
| AttributeError
| TypeError
| ValueError
| OverflowError
| KeyboardInterrupt.

Inductive res (A : Type) :=
| Ok (a : A)
| Raise (e : exn).
Arguments Ok {A} a.
Arguments Raise {A} e.

Definition res_bind {A B} (r : res A) (k : A -> res B) : res B :=
  match r with
  | Ok a => k a
  | Raise e => Raise e
  end.

(** ** Strings

    A Python [str] is kept as its UTF-8 bytes.  [len] counts code points,
    that is, the bytes that are not continuation bytes. *)

Definition chr (n : nat) : string := String (ascii_of_nat n) "".
Definition nl : string := chr 10.
Definition esc : string := chr 27.

Definition is_continuation (c : ascii) : bool :=
  let n := nat_of_ascii c in (128 <=? n)%nat && (n <? 192)%nat.

Fixpoint py_len (s : string) : nat :=
  match s with
  | EmptyString => 0%nat
  | String c s' => ((if is_continuation c then 0 else 1) + py_len s')%nat
  end.

Fixpoint repeat_str (s : string) (n : nat) : string :=
  match n with
  | O => ""
  | S n' => s +:+ repeat_str s n'
  end.

(** [f"{s:>w}"] and [f"{s:<w}"]: pad with spaces up to [w] code points,
    never truncate. *)
Definition rjust (w : nat) (s : string) : string :=
  repeat_str " " (w - py_len s) +:+ s.
Definition ljust (w : nat) (s : string) : string :=
  s +:+ repeat_str " " (w - py_len s).

Definition upper_ascii (c : ascii) : ascii :=
  let n := nat_of_ascii c in
  if (97 <=? n)%nat && (n <=? 122)%nat then ascii_of_nat (n - 32) else c.
Definition lower_ascii (c : ascii) : ascii :=
  let n := nat_of_ascii c in
  if (65 <=? n)%nat && (n <=? 90)%nat then ascii_of_nat (n + 32) else c.

Fixpoint map_str (f : ascii -> ascii) (s : string) : string :=
  match s with
  | EmptyString => EmptyString
  | String c s' => String (f c) (map_str f s')
  end.

(** [str.capitalize()]: first character upper case, the rest lower case.
    Case mapping is the ASCII one; bytes of other characters are kept. *)
Definition capitalize (s : string) : string :=
  match s with
  | EmptyString => EmptyString
  | String c s' => String (upper_ascii c) (map_str lower_ascii s')
  end.

(** [str.isspace] on ASCII: tab to carriage return, the four separators
    28 to 31, and the blank. *)
Definition is_space (c : ascii) : bool :=
  let n := nat_of_ascii c in
  ((9 <=? n)%nat && (n <=? 13)%nat) || ((28 <=? n)%nat && (n <=? 32)%nat).

Fixpoint lstrip (s : string) : string :=
  match s with
  | EmptyString => EmptyString
  | String c s' => if is_space c then lstrip s' else s
  end.

Fixpoint rstrip (s : string) : string :=
  match s with
  | EmptyString => EmptyString
  | String c s' =>
      match rstrip s' with
      | EmptyString => if is_space c then EmptyString else String c EmptyString
      | t => String c t
      end
  end.

Definition strip (s : string) : string := rstrip (lstrip s).

(** [s.split(',')]: always at least one piece. *)
Fixpoint split_comma (s : string) : list string :=
  match s with
  | EmptyString => [EmptyString]
  | String c s' =>
      if Ascii.eqb c ","%char then EmptyString :: split_comma s'
      else match split_comma s' with
           | h :: t => String c h :: t
           | [] => [String c EmptyString]
           end
  end.

(** [sep.join(l)]. *)
Definition join (sep : string) (l : list string) : string := String.concat sep l.

(** ** Numbers

    A JSON number is an [int] (a literal without fraction or exponent)
    or a binary64 [float]; [bool] is a subclass of [int]. *)

Definition int_of_bool (b : bool) : Z := if b then 1 else 0.

(** [float(z)]: correctly rounded, and [OverflowError] past the largest
    float. *)
Definition float_of_int (z : Z) : res spec_float :=
  match binary_normalize 53 1024 z 0 false with
  | S754_infinity _ => Raise OverflowError
  | f => Ok f
  end.

(** [v > 0]. *)
Definition gt_zero (v : pyval) : res bool :=
  match v with
  | PBool b => Ok b
  | PInt z => Ok (0 <? z)
  | PFloat f => Ok (SFltb (S754_zero false) f)
  | _ => Raise TypeError
  end.

(** [v >= 0]. *)
Definition ge_zero (v : pyval) : res bool :=
  match v with
  | PBool b => Ok true
  | PInt z => Ok (0 <=? z)
  | PFloat f => Ok (SFleb (S754_zero false) f)
  | _ => Raise TypeError
  end.

(** [abs(v)]. *)
Definition py_abs (v : pyval) : res pyval :=
  match v with
  | PBool b => Ok (PInt (int_of_bool b))
  | PInt z => Ok (PInt (Z.abs z))
  | PFloat f => Ok (PFloat (SFabs f))
  | _ => Raise TypeError
  end.

(** *** The [.2f] presentation

    The float is printed from its exact value [m * 2^e], rounded to the
    nearest hundredth, ties to the even one. *)

Definition round_half_even (num den : Z) : Z :=
  let q := num / den in
  let r := num mod den in
  match 2 * r ?= den with
  | Lt => q
  | Gt => q + 1
  | Eq => if Z.even q then q else q + 1
  end.

(** The number of hundredths nearest to [m * 2^e]. *)
Definition hundredths (m : positive) (e : Z) : Z :=
  match e with
  | Zneg k => round_half_even (100 * Zpos m) (2 ^ Zpos k)
  | _ => 100 * Zpos m * 2 ^ e
  end.

Fixpoint commas_rev (l : list ascii) : list ascii :=
  match l with
  | a :: b :: c :: ((_ :: _) as rest) => a :: b :: c :: ","%char :: commas_rev rest
  | _ => l
  end.

(** The [,] option: digits in groups of three, counted from the right. *)
Definition group3 (s : string) : string :=
  string_of_list_ascii (rev (commas_rev (rev (list_ascii_of_string s)))).

(** [n] hundredths written with two decimals. *)
Definition fixed2 (comma : bool) (n : Z) : string :=
  let ip := pretty (n / 100) in
  (if comma then group3 ip else ip)
    +:+ "." +:+ pretty (n / 10 mod 10) +:+ pretty (n mod 10).

Definition sign_str (s : bool) : string := if s then "-" else "".

Definition format_float_2f (comma : bool) (x : spec_float) : string :=
  match x with
  | S754_nan => "nan"
  | S754_infinity s => sign_str s +:+ "inf"
  | S754_zero s => sign_str s +:+ fixed2 comma 0
  | S754_finite s m e => sign_str s +:+ fixed2 comma (hundredths m e)
  end.

(** [format(v, ".2f")], with the [,] option when [comma]: an [int] is
    converted to [float] first. *)
Definition format_2f (comma : bool) (v : pyval) : res string :=
  match v with
  | PFloat f => Ok (format_float_2f comma f)
  | PInt z => res_bind (float_of_int z) (fun f => Ok (format_float_2f comma f))
  | PBool b =>
      res_bind (float_of_int (int_of_bool b)) (fun f => Ok (format_float_2f comma f))
  | PStr _ => Raise ValueError
  | _ => Raise TypeError
  end.

(** ** Configuration and colours *)

Record Config := {
  coins : list string;
  update_interval : Z;
  api_base_url : string;
  request_timeout : Z
}.

Module Colors.

Definition GREEN : string := esc +:+ "[92m".
Definition RED : string := esc +:+ "[91m".
Definition RESET : string := esc +:+ "[0m".
Definition BOLD : string := esc +:+ "[1m".

End Colors.

(** ** Effects

    What the program does to the outside world, in order. *)

Inductive level := INFO | WARNING | ERROR.

Inductive event :=
| Clear
| Print (line : string)
| Log (lvl : level) (msg : string)
| Get (url : string) (params : list (string * string)) (timeout : Z)
| Sleep (secs : Z)
| Close.

(** A computation yields the events it emitted and then a value or the
    exception that stopped it. *)
Definition io (A : Type) : Type := list event * res A.

#[export] Instance res_ret : MRet res := fun _ a => Ok a.
#[export] Instance res_mbind : MBind res := fun _ _ k r => res_bind r k.

#[export] Instance io_ret : MRet io := fun _ a => ([], Ok a).
#[export] Instance io_mbind : MBind io := fun _ _ k m =>
  match m with
  | (t, Ok a) => let '(t', r) := k a in (t ++ t', r)
  | (t, Raise e) => (t, Raise e)
  end.

Definition emit (e : event) : io unit := ([e], Ok tt).
Definition raise {A} (e : exn) : io A := ([], Raise e).
Definition lift {A} (r : res A) : io A := ([], r).

Definition print (line : string) : io unit := emit (Print line).
Definition log (lvl : level) (msg : string) : io unit := emit (Log lvl msg).

Fixpoint for_each {A} (l : list A) (body : A -> io unit) : io unit :=
  match l with
  | [] => mret tt
  | x :: l' => body x;; for_each l' body
  end.

(** [time.sleep(secs)] with an [int]: a negative length is refused with
    [ValueError] and one that does not fit the 64-bit nanosecond clock of
    CPython with [OverflowError], both before any waiting; Ctrl+C during
    the wait raises. *)
Definition max_sleep_seconds : Z := (2 ^ 63 - 1) / 10 ^ 9.

Definition sleep (secs : Z) (interrupted : bool) : io unit :=
  if secs <? 0 then raise ValueError
  else if max_sleep_seconds <? secs then raise OverflowError
  else emit (Sleep secs);; if interrupted then raise KeyboardInterrupt else mret tt.

(** ** The client: [CoinGeckoAPI] *)

Record CoinGeckoAPI := {
  base_url : string;
  timeout : Z
}.

(** What [response.json()] finds in the body. *)
Inductive body :=
| Unparseable (msg : string)
| Parsed (v : pyval).

(** What one [session.get] yields: one of the exceptions of [requests]
    ([Timeout], [ConnectionError], another [RequestException] with its
    text), Ctrl+C during the wait, or a response.  [response.json()] on a
    body that is no JSON raises [requests.exceptions.JSONDecodeError],
    which is a [RequestException] (requests 2.27 and later). *)
Inductive net_outcome :=
| NetTimeout
| NetConnectionError
| NetRequestException (msg : string)
| NetInterrupt
| NetResponse (status_code : Z) (b : body).

Definition fetch_prices (self : CoinGeckoAPI) (coin_ids : list string)
    (o : net_outcome) : io pyval :=
  let url := base_url self +:+ "/simple/price" in
  let params := [("ids", join "," coin_ids);
                 ("vs_currencies", "usd");
                 ("include_24hr_change", "true")] in
  emit (Get url params (timeout self));;
  match o with
  | NetInterrupt => raise KeyboardInterrupt
  | NetTimeout =>
      log ERROR "Request timed out";; mret PNone
  | NetConnectionError =>
      log ERROR "Connection error - check your internet connection";; mret PNone
  | NetRequestException msg =>
      log ERROR ("Request failed: " +:+ msg);; mret PNone
  | NetResponse status_code b =>
      (* raise_for_status *)
      if (400 <=? status_code) && (status_code <? 600) then
        log ERROR ("HTTP error: " +:+ pretty status_code);; mret PNone
      else
        match b with
        | Unparseable msg => log ERROR ("Request failed: " +:+ msg);; mret PNone
        | Parsed v => mret v
        end
  end.

(** ** The dashboard: [CryptoDashboard] *)

Record CryptoDashboard := {
  config : Config;
  api : CoinGeckoAPI
}.

Definition up_arrow : string := "↑".
Definition down_arrow : string := "↓".

Definition format_price_change (change : pyval) : res string :=
  up ← ge_zero change;
  let arrow := if (up : bool) then up_arrow else down_arrow in
  up' ← ge_zero change;
  let color := if (up' : bool) then Colors.GREEN else Colors.RED in
  a ← py_abs change;
  s ← format_2f false a;
  mret (color +:+ arrow +:+ " " +:+ rjust 7 s +:+ "%" +:+ Colors.RESET).

(** [d.get(key, default)]: only a dict has the method. *)
Definition dict_get (d : pyval) (key : string) (default : pyval) : res pyval :=
  match d with
  | PDict m => Ok (match m !! key with Some v => v | None => default end)
  | _ => Raise AttributeError
  end.

(** The two cells of a row: [price_str] and [change_str]. *)
Definition quote_cells (prices : pyval) (coin_id : string) : res (string * string) :=
  data ← dict_get prices coin_id (PDict ∅);
  price ← dict_get data "usd" (PInt 0);
  change ← dict_get data "usd_24h_change" (PInt 0);
  shown ← gt_zero price;
  price_str ← (if (shown : bool)
               then s ← format_2f true price; mret ("$" +:+ s)
               else mret "N/A");
  shown' ← gt_zero price;
  change_str ← (if (shown' : bool) then format_price_change change else mret "N/A");
  mret (price_str, change_str).

Definition row_line (coin_id price_str change_str : string) : string :=
  ljust 15 (capitalize coin_id) +:+ " " +:+ rjust 15 price_str
    +:+ " " +:+ rjust 15 change_str.

Definition display_row (prices : pyval) (coin_id : string) : io unit :=
  '(price_str, change_str) ← lift (quote_cells prices coin_id);
  print (row_line coin_id price_str change_str).

Definition rule : string :=
  Colors.BOLD +:+ repeat_str "=" 60 +:+ Colors.RESET.

Definition header : string :=
  Colors.BOLD +:+ ljust 15 "Coin" +:+ " " +:+ rjust 15 "Price (USD)"
    +:+ " " +:+ rjust 15 "24h Change" +:+ Colors.RESET.

Definition clear_screen : io unit := emit Clear.

(** [now] is what [time.strftime] returns at the moment of the call. *)
Definition display (self : CryptoDashboard) (prices : pyval) (now : string) : io unit :=
  clear_screen;;
  print rule;;
  print header;;
  print rule;;
  for_each (coins (config self)) (display_row prices);;
  print rule;;
  print (nl +:+ "Last updated: " +:+ now);;
  print "Press Ctrl+C to exit".

(** What the outside world contributes to one turn of the loop. *)
Record cycle_env := {
  net : net_outcome;
  now : string;
  sleep_interrupted : bool
}.

(** The body of [while True]. *)
Definition cycle (self : CryptoDashboard) (c : cycle_env) : io unit :=
  prices ← fetch_prices (api self) (coins (config self)) (net c);
  (if truthy prices then display self prices (now c)
   else
     print ("Failed to fetch prices. Retrying in "
              +:+ pretty (update_interval (config self)) +:+ "s...");;
     log WARNING "Failed to fetch prices");;
  sleep (update_interval (config self)) (sleep_interrupted c).

(** [while True] against a finite prefix of the environment: [None] when
    the prefix is used up and the loop is still going, [Some e] when the
    exception [e] left the loop. *)
Fixpoint while_true (body : cycle_env -> io unit) (envs : list cycle_env)
    : list event * option exn :=
  match envs with
  | [] => ([], None)
  | c :: rest =>
      match body c with
      | (t, Ok _) => let '(t', r) := while_true body rest in (t ++ t', r)
      | (t, Raise e) => (t, Some e)
      end
  end.

Inductive status :=
| Running
| Stopped
| Crashed (e : exn).

Definition run (self : CryptoDashboard) (envs : list cycle_env) : list event * status :=
  let start := [Log INFO "Starting Crypto Dashboard";
                Log INFO ("Tracking: " +:+ join ", " (coins (config self)))] in
  match while_true (cycle self) envs with
  | (t, None) => (start ++ t, Running)
  | (t, Some KeyboardInterrupt) =>
      (start ++ t ++ [Print (nl +:+ nl +:+ "Exiting Crypto Dashboard. Goodbye!");
                      Log INFO "Dashboard stopped by user";
                      Close], Stopped)
  | (t, Some e) => (start ++ t ++ [Close], Crashed e)
  end.

(** ** [main]

    [coins_arg] and [interval] are the values of [--coins] and
    [--interval] as [argparse] delivers them. *)
Definition main (coins_arg : string) (interval : Z) (envs : list cycle_env)
    : list event * status :=
  let coin_list := map strip (split_comma coins_arg) in
  let config := {| coins := coin_list;
                   update_interval := interval;
                   api_base_url := "https://api.coingecko.com/api/v3";
                   request_timeout := 10 |} in
  let api_client := {| base_url := api_base_url config;
                       timeout := request_timeout config |} in
  let dashboard := {| config := config; api := api_client |} in
  run dashboard envs.

(** ** The failure kinds of the specification

    Timeout, ConnectionFailure, HTTPStatusError(code), ParseError and
    OtherTransportError.  A status is an error status when
    [raise_for_status] raises for it. *)

Inductive failure_kind :=
| Timeout
| ConnectionFailure
| HTTPStatusError (code : Z)
| ParseError
| OtherTransportError (msg : string).

Definition failure_kind_of (o : net_outcome) : option failure_kind :=
  match o with
  | NetTimeout => Some Timeout
  | NetConnectionError => Some ConnectionFailure
  | NetRequestException msg => Some (OtherTransportError msg)
  | NetInterrupt => None
  | NetResponse code b =>
      if (400 <=? code) && (code <? 600) then Some (HTTPStatusError code)
      else match b with
           | Unparseable _ => Some ParseError
           | Parsed _ => None
           end
  end.

Definition failed (o : net_outcome) : Prop := is_Some (failure_kind_of o).

(** The request of a cycle, and what a cycle with a failed fetch puts on
    the trace. *)
Definition request (self : CryptoDashboard) : event :=
  Get (base_url (api self) +:+ "/simple/price")
      [("ids", join "," (coins (config self)));
       ("vs_currencies", "usd");
       ("include_24hr_change", "true")]
      (timeout (api self)).

Definition retry_notice (self : CryptoDashboard) : string :=
  "Failed to fetch prices. Retrying in "
    +:+ pretty (update_interval (config self)) +:+ "s...".

Definition failed_cycle (self : CryptoDashboard) (error_line : string) : list event :=
  [request self;
   Log ERROR error_line;
   Print (retry_notice self);
   Log WARNING "Failed to fetch prices";
   Sleep (update_interval (config self))].

(** ** The data model of the specification

    The exact value of a number, the decimals that a Quote may hold, and
    the QuoteSets built from them. *)

(** [m * 2^e] as a rational. *)
Definition magnitude (m : positive) (e : Z) : Q :=
  match e with
  | Zneg k => (Zpos m # 2 ^ k)%Q
  | _ => inject_Z (Zpos m * 2 ^ e)
  end.

Definition float_Q (f : spec_float) : option Q :=
  match f with
  | S754_zero _ => Some 0%Q
  | S754_finite s m e => Some (if s then (- magnitude m e)%Q else magnitude m e)
  | _ => None
  end.

(** [number v q]: [v] is an [int] or a finite [float] of value [q]. *)
Inductive number : pyval -> Q -> Prop :=
| number_int z : number (PInt z) (inject_Z z)
| number_float f q : float_Q f = Some q -> number (PFloat f) q.

(** A decimal is a number that a float holds exactly: any finite float,
    and the integers up to [2^53]. *)
Definition decimal (v : pyval) (q : Q) : Prop :=
  number v q /\ match v with PInt z => Z.abs z <= 2 ^ 53 | _ => True end.

(** A field of a Quote is absent or a decimal. *)
Definition field_ok (o : option pyval) : Prop :=
  match o with
  | None => True
  | Some v => exists q, decimal v q
  end.

Definition quote_ok (v : pyval) : Prop :=
  exists d, v = PDict d /\ field_ok (d !! "usd") /\ field_ok (d !! "usd_24h_change").

Definition quoteset_ok (m : gmap string pyval) : Prop :=
  forall id v, m !! id = Some v -> quote_ok v.

(** The price of a Quote is absent, zero or negative. *)
Definition price_unavailable (o : option pyval) : Prop :=
  match o with
  | None => True
  | Some v => exists q, number v q /\ (q <= 0)%Q
  end.

(** ** The terminal

    What the terminal shows after a trace: the lines printed since the
    screen was last cleared. *)
Fixpoint screen_from (shown : list string) (t : list event) : list string :=
  match t with
  | [] => shown
  | Clear :: t' => screen_from [] t'
  | Print line :: t' => screen_from (shown ++ [line]) t'
  | _ :: t' => screen_from shown t'
  end.

Definition screen (t : list event) : list string := screen_from [] t.

Definition is_timestamp (line : string) : bool :=
  String.prefix (nl +:+ "Last updated: ") line.

(** The table on the terminal, the timestamp footer left out. *)
Definition table_content (t : list event) : list string :=
  List.filter (fun line => negb (is_timestamp line)) (screen t).

(** The change cell of an available price: colour, arrow, the number of
    hundredths [n] as a decimal in a field of seven, the percent sign. *)
Definition change_text (up : bool) (n : Z) : string :=
  (if up then Colors.GREEN else Colors.RED)
    +:+ (if up then up_arrow else down_arrow)
    +:+ " " +:+ rjust 7 (fixed2 false n) +:+ "%" +:+ Colors.RESET.

(** The dashboard that [main] builds from its arguments. *)
Definition startup (coins_arg : string) (interval : Z) : CryptoDashboard :=
  {| config := {| coins := map strip (split_comma coins_arg);
                  update_interval := interval;
                  api_base_url := "https://api.coingecko.com/api/v3";
                  request_timeout := 10 |};
     api := {| base_url := "https://api.coingecko.com/api/v3"; timeout := 10 |} |}.

(** ** Measures on strings and traces *)

(** The number of commas of a string. *)
Fixpoint commas (s : string) : nat :=
  match s with
  | EmptyString => 0%nat
  | String c s' => ((if Ascii.eqb c ","%char then 1 else 0) + commas s')%nat
  end.

(** All characters of the string are ASCII, where the case mapping and
    the white space of the model are those of Python. *)
Fixpoint ascii_only (s : string) : bool :=
  match s with
  | EmptyString => true
  | String c s' => (nat_of_ascii c <? 128)%nat && ascii_only s'
  end.



(** Events that only touch the terminal. *)
Definition on_terminal (e : event) : Prop :=
  match e with Clear | Print _ => True | _ => False end.

(** Events of a cycle other than its request and its sleep. *)
Definition quiet (e : event) : Prop :=
  match e with Clear | Print _ | Log _ _ => True | _ => False end.

(** What [run] does when Ctrl+C arrives. *)
Definition farewell : list event :=
  [Print (nl +:+ nl +:+ "Exiting Crypto Dashboard. Goodbye!");
   Log INFO "Dashboard stopped by user";
   Close].

(** [int], [float] and [bool] values. *)
Definition is_numeric (v : pyval) : bool :=
  match v with PBool _ | PInt _ | PFloat _ => true | _ => false end.

Definition is_dict (v : pyval) : bool :=
  match v with PDict _ => true | _ => false end.

(** One full cycle on the trace: the request, what came between, the
    sleep. *)
Definition full_cycle (self : CryptoDashboard) (mid : list event) : list event :=
  request self :: mid ++ [Sleep (update_interval (config self))].

(** The two lines that [run] logs before the loop. *)
Definition start_lines (self : CryptoDashboard) : list event :=
  [Log INFO "Starting Crypto Dashboard";
   Log INFO ("Tracking: " +:+ join ", " (coins (config self)))].

(** The same turn of the loop without Ctrl+C during the sleep. *)
Definition uninterrupted (c : cycle_env) : cycle_env :=
  {| net := net c; now := now c; sleep_interrupted := false |}.


(** ** Sample data *)

Module Sample.

Definition fl (s : bool) (m : positive) (e : Z) : pyval := PFloat (S754_finite s m e).
Definition obj (l : list (string * pyval)) : pyval := PDict (list_to_map l).

Definition dashboard (ids : list string) (interval : Z) : CryptoDashboard :=
  {| config := {| coins := ids; update_interval := interval;
                  api_base_url := "https://api.coingecko.com/api/v3";
                  request_timeout := 10 |};
     api := {| base_url := "https://api.coingecko.com/api/v3"; timeout := 10 |} |}.

Definition at_noon (o : net_outcome) : cycle_env :=
  {| net := o; now := "2024-05-01 12:00:00"; sleep_interrupted := false |}.

Definition answers (v : pyval) : cycle_env := at_noon (NetResponse 200 (Parsed v)).

(** 65000.5 and -1.23 as binary64. *)
Definition price_65000_5 : pyval := fl false 8933600695156736 (-37).
Definition change_minus_1_23 : pyval := fl true 5539427541665710 (-52).

Definition bitcoin_quote : gmap string pyval :=
  <["usd" := price_65000_5]> (<["usd_24h_change" := change_minus_1_23]> ∅).
Definition quotes : gmap string pyval := <["bitcoin" := PDict bitcoin_quote]> ∅.

End Sample.

(** * Properties *)

(** ** Numbers: conversion and rounding *)

Lemma digits2_pos_size p : digits2_pos p = Pos.size p.
Proof. induction p; simpl; congruence. Qed.

Lemma iter_xO_digits p k :
  digits2_pos (Pos.iter xO p k) = (digits2_pos p + k)%positive.
Proof.
  apply Pos.iter_ind.
  - simpl. lia.
  - intros k' a IH. simpl. lia.
Qed.

Lemma iter_xO_value p k : Pos.iter xO p k = (p * 2 ^ k)%positive.
Proof.
  apply Pos.iter_ind.
  - rewrite Pos.pow_1_r. lia.
  - intros k' a IH. rewrite Pos.pow_succ_r. lia.
Qed.

Lemma binary_round_aux_53 s m e :
  Zpos (digits2_pos m) = 53 -> -1074 <= e <= 971 ->
  binary_round_aux 53 1024 s (Zpos m) e loc_Exact = S754_finite s m e.
Proof.
  intros Hd He.
  unfold binary_round_aux, shr_fexp, fexp, emin. cbn [Zdigits2 shr_record_of_loc].
  rewrite Hd.
  replace (Z.max (53 + e - 53) (3 - 1024 - 53) - e) with 0 by lia.
  cbn [shr shr_m loc_of_shr_record round_nearest_even Zdigits2 shr_record_of_loc].
  rewrite Hd.
  replace (Z.max (53 + e - 53) (3 - 1024 - 53) - e) with 0 by lia.
  cbn [shr shr_m].
  destruct (Z.leb_spec e (1024 - 53)); [reflexivity | lia].
Qed.

Lemma digits2_pos_le_53 p : Zpos p < 2 ^ 53 -> Zpos (digits2_pos p) <= 53.
Proof.
  intros Hp. rewrite digits2_pos_size.
  pose proof (Pos.size_le p) as Hle.
  destruct (Z.le_gt_cases (Zpos (Pos.size p)) 53) as [H | H]; [exact H | exfalso].
  assert (2 ^ 54 <= 2 ^ Zpos (Pos.size p)) by (apply Z.pow_le_mono_r; lia).
  assert (Zpos (2 ^ Pos.size p) <= Zpos p~0) by lia.
  rewrite Pos2Z.inj_pow in *. lia.
Qed.

Lemma binary_round_small s p :
  Zpos p < 2 ^ 53 ->
  exists m k, binary_round 53 1024 s p 0 = S754_finite s m (- k)
              /\ 0 <= k /\ Zpos m = Zpos p * 2 ^ k.
Proof.
  intros Hp. pose proof (digits2_pos_le_53 p Hp) as Hd.
  unfold binary_round, shl_align, fexp, emin.
  replace (Z.max (Z.pos (digits2_pos p) + 0 - 53) (3 - 1024 - 53) - 0)
    with (Z.pos (digits2_pos p) - 53) by lia.
  replace (Z.max (Z.pos (digits2_pos p) + 0 - 53) (3 - 1024 - 53))
    with (Z.pos (digits2_pos p) - 53) by lia.
  destruct (Z.pos (digits2_pos p) - 53) as [ | d | d] eqn:E; [ | lia | ].
  - exists p, 0. rewrite binary_round_aux_53 by lia. split; [reflexivity | lia].
  - exists (Pos.iter xO p d), (Zpos d).
    rewrite binary_round_aux_53.
    + split; [reflexivity | ]. split; [lia | ].
      rewrite iter_xO_value, Pos2Z.inj_mul, Pos2Z.inj_pow. reflexivity.
    + rewrite iter_xO_digits. lia.
    + lia.
Qed.

Lemma float_of_int_exact z :
  Z.abs z <= 2 ^ 53 ->
  exists f q, float_of_int z = Ok f /\ float_Q f = Some q /\
              (q == inject_Z z)%Q /\ (0 <= z -> SFabs f = f).
Proof.
  intros Hz. unfold float_of_int, binary_normalize.
  assert (Hp : forall s p, Zpos p <= 2 ^ 53 ->
            exists f q, match binary_round 53 1024 s p 0 with
                        | S754_infinity _ => Raise OverflowError
                        | f => Ok f
                        end = Ok f /\ float_Q f = Some q /\
                        (q == inject_Z (if s then Zneg p else Zpos p))%Q /\
                        (s = false -> SFabs f = f)).
  { intros s p Hle.
    destruct (Z.eq_dec (Zpos p) (2 ^ 53)) as [He | Hne].
    - assert (p = 9007199254740992%positive) as -> by lia.
      destruct s; vm_compute; eexists _, _; repeat split; try reflexivity;
        discriminate.
    - destruct (binary_round_small s p ltac:(lia)) as (m & k & -> & Hk & Hm).
      eexists _, _. split; [reflexivity | ]. split; [reflexivity | ].
      split; [ | now intros ->].
      destruct k as [ | k | k]; [ | | lia].
      + change (- 0) with 0. unfold magnitude.
        rewrite Z.pow_0_r, Z.mul_1_r in *. rewrite Hm.
        destruct s; reflexivity.
      + change (- Z.pos k) with (Z.neg k). unfold magnitude.
        destruct s; unfold Qeq; cbn [Qnum Qden Qopp inject_Z];
          rewrite ?Pos2Z.inj_pow; lia. }
  destruct z as [ | p | p].
  - exists (S754_zero false), 0%Q. repeat split; reflexivity.
  - destruct (Hp false p ltac:(lia)) as (f & q & ? & ? & ? & ?). eauto 10.
  - destruct (Hp true p ltac:(lia)) as (f & q & ? & ? & ? & ?).
    exists f, q. repeat split; auto. lia.
Qed.

Lemma round_half_even_near num den :
  0 <= num -> 0 < den ->
  0 <= round_half_even num den /\
  2 * Z.abs (round_half_even num den * den - num) <= den.
Proof.
  intros Hn Hd. unfold round_half_even.
  pose proof (Z.div_mod num den ltac:(lia)) as Hdm.
  pose proof (Z.mod_pos_bound num den Hd) as Hr.
  pose proof (Z.div_pos num den Hn Hd) as Hq.
  destruct (Z.compare_spec (2 * (num mod den)) den) as [He | Hl | Hg];
    [destruct (Z.even (num / den)) | | ]; split; nia.
Qed.

Lemma magnitude_pos m e : (0 < magnitude m e)%Q.
Proof.
  unfold magnitude, Qlt. destruct e as [ | k | k]; cbn [Qnum Qden inject_Z].
  - lia.
  - pose proof (Z.pow_pos_nonneg 2 (Z.pos k)). nia.
  - lia.
Qed.

Lemma hundredths_near m e :
  0 <= hundredths m e /\
  (Qabs (inject_Z (hundredths m e) - 100 * magnitude m e) <= 1 # 2)%Q.
Proof.
  unfold hundredths, magnitude.
  destruct e as [ | k | k].
  - split; [lia | ]. rewrite Z.pow_0_r. set (X := Z.pos m * 1).
    replace (100 * Z.pos m * 1) with (100 * X) by (subst X; lia).
    unfold Qle, Qabs, Qminus, Qplus, Qmult, Qopp, inject_Z. cbn [Qnum Qden]. lia.
  - pose proof (Z.pow_pos_nonneg 2 (Z.pos k)).
    split; [nia | ]. set (X := Z.pos m * 2 ^ Z.pos k).
    replace (100 * Z.pos m * 2 ^ Z.pos k) with (100 * X) by (subst X; lia).
    unfold Qle, Qabs, Qminus, Qplus, Qmult, Qopp, inject_Z. cbn [Qnum Qden]. lia.
  - assert (Hd : 0 < 2 ^ Z.pos k) by (apply Z.pow_pos_nonneg; lia).
    destruct (round_half_even_near (100 * Z.pos m) (2 ^ Z.pos k) ltac:(lia) Hd)
      as [H0 Hnear].
    split; [exact H0 | ].
    set (n := round_half_even (100 * Z.pos m) (2 ^ Z.pos k)) in *.
    unfold Qle, Qabs, Qminus, Qplus, Qmult, Qopp, inject_Z. cbn [Qnum Qden].
    rewrite !Pos2Z.inj_mul, Pos2Z.inj_pow. lia.
Qed.

Lemma format_float_abs f q :
  float_Q f = Some q ->
  exists n, format_float_2f false (SFabs f) = fixed2 false n /\ 0 <= n /\
            (Qabs (inject_Z n - 100 * Qabs q) <= 1 # 2)%Q.
Proof.
  intros Hq. destruct f as [s | s | | s m e]; simpl in Hq; try discriminate;
    injection Hq as <-.
  - exists 0. split; [reflexivity | ]. split; [lia | ]. vm_compute. discriminate.
  - exists (hundredths m e). split; [reflexivity | ].
    destruct (hundredths_near m e) as [H0 Hn]. split; [exact H0 | ].
    assert (Ha : (Qabs (if s then - magnitude m e else magnitude m e)
                  == magnitude m e)%Q).
    { destruct s; [rewrite Qabs_opp | ];
        apply Qabs_pos, Qlt_le_weak, magnitude_pos. }
    now rewrite Ha.
Qed.

Lemma abs_decimal_format change q :
  decimal change q ->
  exists a n, py_abs change = Ok a /\ format_2f false a = Ok (fixed2 false n) /\
              0 <= n /\ (Qabs (inject_Z n - 100 * Qabs q) <= 1 # 2)%Q.
Proof.
  intros [[z | f q' Hq] Hz].
  - destruct (float_of_int_exact (Z.abs z) ltac:(lia)) as (f & q0 & Hf & Hq & He & Ha).
    destruct (format_float_abs f q0 Hq) as (n & Hs & H0 & Hn).
    exists (PInt (Z.abs z)), n. split; [reflexivity | ].
    split; [ | split; [exact H0 | ]].
    + simpl. rewrite Hf. simpl. rewrite <- Hs, Ha; [reflexivity | lia].
    + rewrite He in Hn.
      replace (Qabs (inject_Z (Z.abs z))) with (Qabs (inject_Z z)) in Hn; [exact Hn | ].
      unfold Qabs, inject_Z. f_equal. lia.
  - destruct (format_float_abs f q' Hq) as (n & Hs & H0 & Hn).
    exists (PFloat (SFabs f)), n. split; [reflexivity | ]. simpl. now rewrite Hs.
Qed.

Lemma ge_zero_number v q :
  number v q ->
  exists b, ge_zero v = Ok b /\ (b = true <-> (0 <= q)%Q).
Proof.
  destruct 1 as [z | f q Hq].
  - exists (0 <=? z). split; [reflexivity | ].
    unfold Qle. cbn [Qnum Qden inject_Z]. rewrite Z.leb_le. lia.
  - destruct f as [s | s | | s m e]; simpl in Hq; try discriminate;
      injection Hq as <-.
    + exists true. split; [reflexivity | ]. split; [ | reflexivity].
      intros _. apply Qle_refl.
    + pose proof (magnitude_pos m e) as Hm. destruct s.
      * exists false. split; [reflexivity | ]. split; [discriminate | ].
        intros Hle. exfalso. apply (Qlt_irrefl 0).
        eapply Qlt_le_trans; [exact Hm | ].
        apply Qopp_le_compat in Hle. rewrite Qopp_opp in Hle. exact Hle.
      * exists true. split; [reflexivity | ]. split; [ | reflexivity].
        intros _. now apply Qlt_le_weak.
Qed.

Lemma gt_zero_number v q :
  number v q ->
  exists b, gt_zero v = Ok b /\ (b = true <-> (0 < q)%Q).
Proof.
  destruct 1 as [z | f q Hq].
  - exists (0 <? z). split; [reflexivity | ].
    unfold Qlt. cbn [Qnum Qden inject_Z]. rewrite Z.ltb_lt. lia.
  - destruct f as [s | s | | s m e]; simpl in Hq; try discriminate;
      injection Hq as <-.
    + exists false. split; [reflexivity | ]. split; [discriminate | ].
      intros H. now apply Qlt_irrefl in H.
    + pose proof (magnitude_pos m e) as Hm. destruct s.
      * exists false. split; [reflexivity | ]. split; [discriminate | ].
        intros Hlt. exfalso. apply (Qlt_irrefl 0).
        eapply Qlt_trans; [exact Hm | ].
        apply Qopp_lt_compat in Hlt. rewrite Qopp_opp in Hlt. exact Hlt.
      * exists true. split; [reflexivity | ]. tauto.
Qed.

Lemma format_2f_decimal comma v q :
  decimal v q -> exists s, format_2f comma v = Ok s.
Proof.
  intros [[z | f q' Hq] Hz].
  - destruct (float_of_int_exact z Hz) as (f & q0 & Hf & _).
    simpl. rewrite Hf. simpl. eauto.
  - simpl. eauto.
Qed.

(** ** The cells of a row *)

Lemma format_price_change_decimal change q :
  decimal change q ->
  exists (up : bool) (n : Z),
    format_price_change change = Ok (change_text up n) /\
    (up = true <-> (0 <= q)%Q) /\
    0 <= n /\ (Qabs (inject_Z n - 100 * Qabs q) <= 1 # 2)%Q.
Proof.
  intros Hd.
  destruct (ge_zero_number change q (proj1 Hd)) as (up & Hup & Hdir).
  destruct (abs_decimal_format change q Hd) as (a & n & Ha & Hf & H0 & Hn).
  exists up, n. split; [ | auto].
  unfold format_price_change. rewrite Hup. cbn. rewrite Ha. cbn. rewrite Hf.
  reflexivity.
Qed.

Lemma quote_cells_unavailable (m : gmap string pyval) coin_id :
  (m !! coin_id = None \/
   exists d, m !! coin_id = Some (PDict d) /\ price_unavailable (d !! "usd")) ->
  quote_cells (PDict m) coin_id = Ok ("N/A", "N/A").
Proof.
  unfold quote_cells. cbv [dict_get mbind mret res_mbind res_ret res_bind].
  intros [-> | (d & -> & Hp)].
  - rewrite !lookup_empty. reflexivity.
  - unfold price_unavailable in Hp.
    destruct (d !! "usd") as [price | ].
    + destruct Hp as (q & Hnum & Hq).
      destruct (gt_zero_number price q Hnum) as (b & -> & Hb).
      destruct b; [ | reflexivity].
      exfalso. apply (Qlt_irrefl 0). eapply Qlt_le_trans; [ | exact Hq].
      now apply Hb.
    + reflexivity.
Qed.

Lemma quote_cells_available (m d : gmap string pyval) coin_id price p :
  m !! coin_id = Some (PDict d) ->
  d !! "usd" = Some price ->
  decimal price p -> (0 < p)%Q ->
  exists price_text,
    format_2f true price = Ok price_text /\
    quote_cells (PDict m) coin_id =
      res_bind (format_price_change
                  (match d !! "usd_24h_change" with Some v => v | None => PInt 0 end))
               (fun change_str => Ok ("$" +:+ price_text, change_str)).
Proof.
  intros Hm Hd Hdec Hpos.
  destruct (gt_zero_number price p (proj1 Hdec)) as (b & Hb & Hdir).
  assert (b = true) as -> by now apply Hdir.
  destruct (format_2f_decimal true price p Hdec) as (s & Hs).
  exists s. split; [exact Hs | ].
  unfold quote_cells. cbv [dict_get mbind mret res_mbind res_ret res_bind].
  rewrite Hm, Hd, Hb, Hs. reflexivity.
Qed.

(** C5.  When the price of a Quote is absent, zero or negative, and also
    when the asset has no Quote at all, both cells of the row are "N/A"
    and the row is printed with them, whatever the change field holds:
    the entry under "usd_24h_change" of [d] is arbitrary, be it a number
    of either sign, absent, [None], a string or a list. *)
Theorem unavailable_price_gates_both_cells (m : gmap string pyval)
    (coin_id : string) :
  (m !! coin_id = None \/
   exists d, m !! coin_id = Some (PDict d) /\ price_unavailable (d !! "usd")) ->
  quote_cells (PDict m) coin_id = Ok ("N/A", "N/A") /\
  display_row (PDict m) coin_id = ([Print (row_line coin_id "N/A" "N/A")], Ok tt).
Proof.
  intros H. pose proof (quote_cells_unavailable m coin_id H) as Hc.
  split; [exact Hc | ]. unfold display_row. now rewrite Hc.
Qed.

Lemma unavailable_price_gates_both_cells_witness :
  let d := <["usd" := PInt 0]> (<["usd_24h_change" := PStr "n/a"]> ∅) in
  let m : gmap string pyval := <["bitcoin" := PDict d]> ∅ in
  quote_cells (PDict m) "bitcoin" = Ok ("N/A", "N/A") /\
  display_row (PDict m) "bitcoin" = ([Print (row_line "bitcoin" "N/A" "N/A")], Ok tt).
Proof.
  intros d m. apply (unavailable_price_gates_both_cells m "bitcoin").
  right. exists d. split; [reflexivity | ].
  exists 0%Q. split; [exact (number_int 0) | discriminate].
Defined.

(** C6.  When the price is a positive decimal and the change is a
    decimal [q], the change cell is a colour, an arrow, a blank, a number
    right-aligned in a field of seven, the percent sign and the colour
    reset: green and the up arrow when [0 <= q], red and the down arrow
    when [q < 0]; the number is [n] hundredths written with exactly two
    decimals, where [n] is within one half of [100 * |q|]. *)
Theorem change_cell_direction_and_magnitude (m d : gmap string pyval)
    (coin_id : string) (price change : pyval) (p q : Q) :
  m !! coin_id = Some (PDict d) ->
  d !! "usd" = Some price -> decimal price p -> (0 < p)%Q ->
  d !! "usd_24h_change" = Some change -> decimal change q ->
  exists (price_str indicator : string) (n : Z),
    quote_cells (PDict m) coin_id =
      Ok (price_str,
          indicator +:+ " "
            +:+ rjust 7 (pretty (n / 100) +:+ "."
                           +:+ pretty (n / 10 mod 10) +:+ pretty (n mod 10))
            +:+ "%" +:+ Colors.RESET) /\
    ((0 <= q)%Q -> indicator = Colors.GREEN +:+ up_arrow) /\
    ((q < 0)%Q -> indicator = Colors.RED +:+ down_arrow) /\
    0 <= n /\ (Qabs (inject_Z n - 100 * Qabs q) <= 1 # 2)%Q.
Proof.
  intros Hm Hp Hdp Hpos Hc Hdc.
  destruct (quote_cells_available m d coin_id price p Hm Hp Hdp Hpos)
    as (ps & _ & Hcells).
  destruct (format_price_change_decimal change q Hdc)
    as (up & n & Hf & Hdir & H0 & Hn).
  rewrite Hc, Hf in Hcells. cbn [res_bind] in Hcells.
  exists ("$" +:+ ps), ((if up then Colors.GREEN else Colors.RED)
                          +:+ (if up then up_arrow else down_arrow)), n.
  split; [ | split; [ | split; [ | auto]]].
  - rewrite Hcells. unfold change_text, fixed2. do 2 f_equal.
    destruct up; reflexivity.
  - intros Hq. apply Hdir in Hq. now subst up.
  - intros Hq. destruct up; [ | reflexivity].
    exfalso. apply (Qlt_irrefl q). eapply Qlt_le_trans; [exact Hq | ].
    now apply Hdir.
Qed.

Lemma change_cell_direction_and_magnitude_witness :
  exists (price_str indicator : string) (n : Z),
    quote_cells (PDict Sample.quotes) "bitcoin" =
      Ok (price_str,
          indicator +:+ " "
            +:+ rjust 7 (pretty (n / 100) +:+ "."
                           +:+ pretty (n / 10 mod 10) +:+ pretty (n mod 10))
            +:+ "%" +:+ Colors.RESET) /\
    ((0 <= - magnitude 5539427541665710 (-52))%Q ->
     indicator = Colors.GREEN +:+ up_arrow) /\
    ((- magnitude 5539427541665710 (-52) < 0)%Q ->
     indicator = Colors.RED +:+ down_arrow) /\
    0 <= n /\
    (Qabs (inject_Z n - 100 * Qabs (- magnitude 5539427541665710 (-52))) <= 1 # 2)%Q.
Proof.
  apply (change_cell_direction_and_magnitude
           Sample.quotes Sample.bitcoin_quote "bitcoin"
           Sample.price_65000_5 Sample.change_minus_1_23
           (magnitude 8933600695156736 (-37))
           (- magnitude 5539427541665710 (-52))%Q).
  - reflexivity.
  - reflexivity.
  - split; [apply number_float; reflexivity | exact I].
  - reflexivity.
  - reflexivity.
  - split; [apply number_float; reflexivity | exact I].
Defined.

Lemma format_price_change_zero zero :
  zero = PInt 0 \/ (exists s, zero = PFloat (S754_zero s)) ->
  format_price_change zero = Ok (change_text true 0).
Proof.
  intros [-> | [[] ->]]; reflexivity.
Qed.

(** C8, as the claim has it: with a positive price and no change field
    the change cell would be "N/A" and differ from the cell of a zero
    change.  For the Quote [{"usd": 5}] the cell is the green up arrow
    with 0.00%, the very cell of [{"usd": 5, "usd_24h_change": 0}]. *)
Lemma absent_change_is_not_marked :
  let absent := Sample.obj [("bitcoin", Sample.obj [("usd", PInt 5)])] in
  let zero := Sample.obj [("bitcoin", Sample.obj [("usd", PInt 5);
                                                  ("usd_24h_change", PInt 0)])] in
  quote_cells absent "bitcoin" = Ok ("$5.00", change_text true 0) /\
  quote_cells zero "bitcoin" = Ok ("$5.00", change_text true 0) /\
  change_text true 0 <> "N/A".
Proof.
  repeat split; try (vm_compute; reflexivity). vm_compute. discriminate.
Qed.

(** C8, amended.  When the price is a positive decimal and the change
    field is absent, the change falls back to zero: the change cell is
    the up arrow in green with 0.00%, and the two cells are those of the
    same Quote with a change of zero put in. *)
Theorem absent_change_renders_as_zero (m d : gmap string pyval)
    (coin_id : string) (price : pyval) (p : Q) :
  m !! coin_id = Some (PDict d) ->
  d !! "usd" = Some price -> decimal price p -> (0 < p)%Q ->
  d !! "usd_24h_change" = None ->
  exists price_str,
    quote_cells (PDict m) coin_id =
      Ok (price_str,
          Colors.GREEN +:+ up_arrow +:+ "    0.00%" +:+ Colors.RESET) /\
    forall zero,
      zero = PInt 0 \/ (exists s, zero = PFloat (S754_zero s)) ->
      quote_cells
        (PDict (<[coin_id := PDict (<["usd_24h_change" := zero]> d)]> m)) coin_id
      = quote_cells (PDict m) coin_id.
Proof.
  intros Hm Hp Hdp Hpos Hc.
  destruct (quote_cells_available m d coin_id price p Hm Hp Hdp Hpos)
    as (ps & Hps & Hcells).
  rewrite Hc in Hcells.
  rewrite (format_price_change_zero (PInt 0)) in Hcells by now left.
  exists ("$" +:+ ps). split; [exact Hcells | ].
  intros zero Hz.
  destruct (quote_cells_available
              (<[coin_id := PDict (<["usd_24h_change" := zero]> d)]> m)
              (<["usd_24h_change" := zero]> d) coin_id price p)
    as (ps' & Hps' & Hcells'); auto.
  - apply lookup_insert_eq.
  - rewrite lookup_insert_ne by discriminate. exact Hp.
  - rewrite lookup_insert_eq in Hcells'.
    rewrite (format_price_change_zero zero Hz) in Hcells'.
    assert (ps' = ps) as -> by congruence.
    rewrite Hcells, Hcells'. reflexivity.
Qed.

Lemma absent_change_renders_as_zero_witness :
  let d : gmap string pyval := <["usd" := Sample.price_65000_5]> ∅ in
  let m : gmap string pyval := <["bitcoin" := PDict d]> ∅ in
  exists price_str,
    quote_cells (PDict m) "bitcoin" =
      Ok (price_str,
          Colors.GREEN +:+ up_arrow +:+ "    0.00%" +:+ Colors.RESET) /\
    forall zero,
      zero = PInt 0 \/ (exists s, zero = PFloat (S754_zero s)) ->
      quote_cells
        (PDict (<["bitcoin" := PDict (<["usd_24h_change" := zero]> d)]> m)) "bitcoin"
      = quote_cells (PDict m) "bitcoin".
Proof.
  intros d m.
  apply (absent_change_renders_as_zero m d "bitcoin" Sample.price_65000_5
           (magnitude 8933600695156736 (-37))).
  - reflexivity.
  - reflexivity.
  - split; [apply number_float; reflexivity | exact I].
  - reflexivity.
  - reflexivity.
Defined.

(** ** The table *)

Lemma quote_cells_ok (m : gmap string pyval) coin_id :
  quoteset_ok m ->
  exists price_str change_str,
    quote_cells (PDict m) coin_id = Ok (price_str, change_str).
Proof.
  intros Hm. destruct (m !! coin_id) as [v | ] eqn:Hv.
  - destruct (Hm coin_id v Hv) as (d & -> & Hprice & Hchange).
    destruct (d !! "usd") as [price | ] eqn:Hp.
    + destruct Hprice as [p Hdp].
      destruct (gt_zero_number price p (proj1 Hdp)) as ([] & Hb & Hdir).
      * destruct (quote_cells_available m d coin_id price p Hv Hp Hdp)
          as (ps & _ & ->); [now apply Hdir | ].
        destruct (d !! "usd_24h_change") as [change | ].
        -- destruct Hchange as [q Hdq].
           destruct (format_price_change_decimal change q Hdq) as (up & n & -> & _).
           cbn. eauto.
        -- rewrite (format_price_change_zero (PInt 0)) by now left. cbn. eauto.
      * exists "N/A", "N/A". apply quote_cells_unavailable. right.
        exists d. split; [exact Hv | ]. rewrite Hp. exists p. split; [apply Hdp | ].
        apply Qnot_lt_le. intros Hlt. apply Hdir in Hlt. discriminate.
    + exists "N/A", "N/A". apply quote_cells_unavailable. right.
      exists d. split; [exact Hv | ]. now rewrite Hp.
  - exists "N/A", "N/A". apply quote_cells_unavailable. now left.
Qed.

Lemma display_row_ok prices coin_id price_str change_str :
  quote_cells prices coin_id = Ok (price_str, change_str) ->
  display_row prices coin_id =
    ([Print (row_line coin_id price_str change_str)], Ok tt).
Proof.
  intros Hc. unfold display_row. now rewrite Hc.
Qed.

Lemma for_each_rows (m : gmap string pyval) (ids : list string) :
  quoteset_ok m ->
  exists rows,
    for_each ids (display_row (PDict m)) = (map Print rows, Ok tt) /\
    Forall2 (fun coin_id row =>
               exists price_str change_str,
                 quote_cells (PDict m) coin_id = Ok (price_str, change_str) /\
                 row = row_line coin_id price_str change_str) ids rows.
Proof.
  intros Hm. induction ids as [ | id ids (rows & IH & Hrows)].
  - exists []. split; [reflexivity | constructor].
  - destruct (quote_cells_ok m id Hm) as (ps & cs & Hc).
    exists (row_line id ps cs :: rows). split.
    + cbn [for_each]. rewrite (display_row_ok _ _ _ _ Hc), IH. reflexivity.
    + constructor; eauto.
Qed.

Lemma display_shape self prices now :
  display self prices now =
    match for_each (coins (config self)) (display_row prices) with
    | (t, Ok _) =>
        ([Clear; Print rule; Print header; Print rule] ++ t ++
         [Print rule; Print (nl +:+ "Last updated: " +:+ now);
          Print "Press Ctrl+C to exit"], Ok tt)
    | (t, Raise e) => ([Clear; Print rule; Print header; Print rule] ++ t, Raise e)
    end.
Proof.
  unfold display. destruct (for_each _ _) as [t [[] | e]]; reflexivity.
Qed.

(** C7.  For a QuoteSet whose Quotes hold decimals or nothing, [display]
    prints, between the header and the closing rule, exactly one row per
    configured identifier and in the configured order: the rows are in
    step with the identifier list, each made of the capitalized
    identifier and the two cells of that identifier, whether or not the
    QuoteSet has data for it. *)
Theorem one_row_per_identifier (self : CryptoDashboard)
    (m : gmap string pyval) (now : string) :
  quoteset_ok m ->
  exists rows : list string,
    display self (PDict m) now =
      ([Clear; Print rule; Print header; Print rule] ++ map Print rows ++
       [Print rule; Print (nl +:+ "Last updated: " +:+ now);
        Print "Press Ctrl+C to exit"], Ok tt) /\
    length rows = length (coins (config self)) /\
    Forall2 (fun coin_id row =>
               exists price_str change_str,
                 quote_cells (PDict m) coin_id = Ok (price_str, change_str) /\
                 row = row_line coin_id price_str change_str)
            (coins (config self)) rows.
Proof.
  intros Hm.
  destruct (for_each_rows m (coins (config self)) Hm) as (rows & Hfe & Hrows).
  exists rows. split; [ | split].
  - rewrite display_shape, Hfe. reflexivity.
  - symmetry. eapply Forall2_length. exact Hrows.
  - exact Hrows.
Qed.

Lemma sample_quotes_ok : quoteset_ok Sample.quotes.
Proof.
  intros id v H. unfold Sample.quotes in H. apply lookup_insert_Some in H.
  destruct H as [[_ <-] | [_ H]]; [ | rewrite lookup_empty in H; discriminate].
  exists Sample.bitcoin_quote. split; [reflexivity | ].
  split; eexists; (split; [apply number_float; reflexivity | exact I]).
Defined.

Lemma one_row_per_identifier_witness :
  let self := Sample.dashboard ["bitcoin"; "ethereum"] 10 in
  exists rows : list string,
    display self (PDict Sample.quotes) "2024-05-01 12:00:00" =
      ([Clear; Print rule; Print header; Print rule] ++ map Print rows ++
       [Print rule; Print (nl +:+ "Last updated: 2024-05-01 12:00:00");
        Print "Press Ctrl+C to exit"], Ok tt) /\
    length rows = 2%nat /\
    Forall2 (fun coin_id row =>
               exists price_str change_str,
                 quote_cells (PDict Sample.quotes) coin_id = Ok (price_str, change_str) /\
                 row = row_line coin_id price_str change_str)
            ["bitcoin"; "ethereum"] rows.
Proof.
  intros self.
  exact (one_row_per_identifier self Sample.quotes "2024-05-01 12:00:00"
           sample_quotes_ok).
Defined.

(** ** The terminal *)

Lemma screen_from_app shown t1 t2 :
  screen_from shown (t1 ++ t2) = screen_from (screen_from shown t1) t2.
Proof.
  revert shown. induction t1 as [ | [] t1 IH]; intros shown; cbn; auto.
Qed.

Lemma screen_from_footer shown t a b c :
  screen_from shown (t ++ [Print a; Print b; Print c]) =
    screen_from shown t ++ [a; b; c].
Proof.
  rewrite screen_from_app. cbn. now rewrite <- !app_assoc.
Qed.

Lemma is_timestamp_footer now :
  is_timestamp (nl +:+ "Last updated: " +:+ now) = true.
Proof. destruct now; reflexivity. Qed.

Lemma table_content_display self prices now :
  table_content (fst (display self prices now)) =
    match for_each (coins (config self)) (display_row prices) with
    | (t, Ok _) =>
        List.filter (fun line => negb (is_timestamp line))
                    (screen_from [rule; header; rule] t)
          ++ [rule; "Press Ctrl+C to exit"]
    | (t, Raise _) =>
        List.filter (fun line => negb (is_timestamp line))
                    (screen_from [rule; header; rule] t)
    end.
Proof.
  rewrite display_shape. unfold table_content, screen.
  destruct (for_each _ _) as [t [[] | e]]; cbn [fst].
  - change ([Clear; Print rule; Print header; Print rule] ++ t ++ ?f)
      with (Clear :: Print rule :: Print header :: Print rule :: (t ++ f)).
    cbn [screen_from app]. rewrite screen_from_footer, List.filter_app.
    cbn [List.filter]. rewrite is_timestamp_footer. reflexivity.
  - reflexivity.
Qed.

Lemma display_clears_first self prices now :
  exists t, fst (display self prices now) = Clear :: t.
Proof.
  rewrite display_shape. destruct (for_each _ _) as [t [[] | e]]; cbn; eauto.
Qed.

(** C9.  Rendering the same QuoteSet under the same configuration twice
    gives the same table: at two different clock readings [display]
    leaves the same lines on the terminal once the timestamp footer is
    left out, and ends the same way; and after rendering twice in a row,
    on whatever was on the terminal before, the terminal holds the table
    of a single rendering, the screen being cleared first. *)
Theorem rendering_idempotent (self : CryptoDashboard) (prices : pyval)
    (now1 now2 : string) (before : list event) :
  table_content (fst (display self prices now1)) =
    table_content (fst (display self prices now2)) /\
  snd (display self prices now1) = snd (display self prices now2) /\
  table_content (before ++ fst (display self prices now1)
                        ++ fst (display self prices now2)) =
    table_content (fst (display self prices now1)).
Proof.
  assert (H12 : table_content (fst (display self prices now1)) =
                table_content (fst (display self prices now2)))
    by now rewrite !table_content_display.
  split; [exact H12 | split].
  - rewrite !display_shape. now destruct (for_each _ _) as [t [[] | e]].
  - rewrite H12. destruct (display_clears_first self prices now2) as [t ->].
    unfold table_content, screen. now rewrite app_assoc, screen_from_app.
Qed.

(** ** The loop *)

Lemma while_true_cons_ok body c rest t :
  body c = (t, Ok tt) ->
  while_true body (c :: rest) =
    (t ++ fst (while_true body rest), snd (while_true body rest)).
Proof.
  intros Hc. simpl. rewrite Hc. now destruct (while_true body rest).
Qed.

Lemma fetch_prices_failed self coin_ids o k :
  failure_kind_of o = Some k ->
  exists error_line,
    fetch_prices self coin_ids o =
      ([Get (base_url self +:+ "/simple/price")
            [("ids", join "," coin_ids); ("vs_currencies", "usd");
             ("include_24hr_change", "true")] (timeout self);
        Log ERROR error_line], Ok PNone).
Proof.
  unfold fetch_prices.
  destruct o as [ | | msg | | code b]; simpl; intros Hk; try discriminate;
    try (eexists; reflexivity).
  destruct ((400 <=? code) && (code <? 600)).
  - eexists; reflexivity.
  - destruct b; [eexists; reflexivity | discriminate].
Qed.

Lemma cycle_failed self c :
  0 <= update_interval (config self) <= max_sleep_seconds ->
  failed (net c) ->
  sleep_interrupted c = false ->
  exists error_line, cycle self c = (failed_cycle self error_line, Ok tt).
Proof.
  intros Hi [k Hk] Hs.
  destruct (fetch_prices_failed (api self) (coins (config self)) _ _ Hk) as [msg Hf].
  exists msg. unfold cycle. rewrite Hf. cbn.
  unfold sleep. rewrite Hs.
  destruct (Z.ltb_spec (update_interval (config self)) 0); [lia | ].
  destruct (Z.ltb_spec max_sleep_seconds (update_interval (config self)));
    [lia | reflexivity].
Qed.

Lemma failed_cycles self fails rest :
  0 <= update_interval (config self) <= max_sleep_seconds ->
  Forall (fun c => failed (net c) /\ sleep_interrupted c = false) fails ->
  exists error_lines,
    length error_lines = length fails /\
    while_true (cycle self) (fails ++ rest) =
      (flat_map (failed_cycle self) error_lines ++ fst (while_true (cycle self) rest),
       snd (while_true (cycle self) rest)).
Proof.
  intros Hi. induction 1 as [ | c fails [Hc Hs] _ (msgs & Hlen & IH)].
  - exists []. split; [reflexivity | simpl; now destruct (while_true _ rest)].
  - destruct (cycle_failed self c Hi Hc Hs) as [msg Hcy].
    exists (msg :: msgs). split; [simpl; now rewrite Hlen | ].
    change ((c :: fails) ++ rest) with (c :: (fails ++ rest)).
    rewrite (while_true_cons_ok _ _ _ _ Hcy), IH. cbn [fst snd flat_map].
    now rewrite <- app_assoc.
Qed.

Lemma io_bind_head {A B} (m : io A) (k : A -> io B) e t r :
  m = (e :: t, r) -> exists t' r', m ≫= k = (e :: t', r').
Proof.
  intros ->. unfold mbind, io_mbind.
  destruct r as [a | x]; [destruct (k a) as [t' r'] | ]; eauto.
Qed.

Lemma fetch_prices_starts_with_request self o :
  exists t r, fetch_prices (api self) (coins (config self)) o = (request self :: t, r).
Proof.
  unfold fetch_prices. eapply io_bind_head. reflexivity.
Qed.

Lemma cycle_starts_with_request self c :
  exists t r, cycle self c = (request self :: t, r).
Proof.
  destruct (fetch_prices_starts_with_request self (net c)) as (t & r & Hf).
  unfold cycle. eapply io_bind_head. exact Hf.
Qed.

Lemma while_true_starts_with_request self c rest :
  exists t r, while_true (cycle self) (c :: rest) = (request self :: t, r).
Proof.
  destruct (cycle_starts_with_request self c) as (t & r & Hc).
  simpl. rewrite Hc. destruct r as [[] | e]; [ | eauto].
  destruct (while_true _ rest); eauto.
Qed.



(** A response whose body is JSON and whose status is no error status is
    handed to the caller as it is, with no log line. *)
Lemma fetch_prices_parsed self coin_ids code v :
  (400 <=? code) && (code <? 600) = false ->
  fetch_prices self coin_ids (NetResponse code (Parsed v)) =
    ([Get (base_url self +:+ "/simple/price")
          [("ids", join "," coin_ids); ("vs_currencies", "usd");
           ("include_24hr_change", "true")] (timeout self)], Ok v).
Proof.
  intros Hc. unfold fetch_prices. now rewrite Hc.
Qed.

(** C2.  A successful fetch whose QuoteSet is the empty mapping (status
    200, body [{}]) does not reach [display]: the cycle prints the retry
    notice and logs the warning, as after a failed request.  A QuoteSet
    that misses an identifier but is not empty is rendered. *)
Theorem empty_quoteset_takes_failure_path :
  let self := Sample.dashboard ["bitcoin"; "ethereum"] 10 in
  cycle self (Sample.answers (PDict ∅)) =
    ([request self;
      Print "Failed to fetch prices. Retrying in 10s...";
      Log WARNING "Failed to fetch prices";
      Sleep 10], Ok tt) /\
  cycle self (Sample.answers (Sample.obj [("ethereum", Sample.obj [])])) =
    ([request self] ++ fst (display self (Sample.obj [("ethereum", Sample.obj [])])
                              "2024-05-01 12:00:00") ++ [Sleep 10], Ok tt).
Proof.
  split; vm_compute; reflexivity.
Qed.

(** C3.  Bodies that are JSON but not of the expected shape end the
    program with an exception that nothing handles: a top-level list
    (no [get] method), an asset whose value is a number (no [get] method
    either), a price that is [null] or a string (no order with [0]), a
    change that is [null]. *)
Theorem malformed_body_crashes :
  let self := Sample.dashboard ["bitcoin"] 10 in
  snd (run self [Sample.answers (PList [PInt 1])]) = Crashed AttributeError /\
  snd (run self [Sample.answers (Sample.obj [("bitcoin", PInt 5)])])
    = Crashed AttributeError /\
  snd (run self [Sample.answers (Sample.obj [("bitcoin", Sample.obj [("usd", PNone)])])])
    = Crashed TypeError /\
  snd (run self [Sample.answers
                   (Sample.obj [("bitcoin", Sample.obj [("usd", PStr "65000.5")])])])
    = Crashed TypeError /\
  snd (run self [Sample.answers
                   (Sample.obj [("bitcoin", Sample.obj [("usd", PInt 5);
                                                        ("usd_24h_change", PNone)])])])
    = Crashed TypeError.
Proof.
  repeat split; vm_compute; reflexivity.
Qed.

(** ** The client *)

(** C4, as the claim has it: the value that [fetch_prices] returns would
    tell the failure kinds apart.  It does not: a timeout and a refused
    connection both return [None]. *)
Lemma failure_kinds_collapse_in_result :
  ~ exists inspect : res pyval -> failure_kind,
      forall self coin_ids o k,
        failure_kind_of o = Some k ->
        inspect (snd (fetch_prices self coin_ids o)) = k.
Proof.
  intros [inspect H].
  pose (self := {| base_url := ""; timeout := 10 |}).
  pose proof (H self [] NetTimeout Timeout eq_refl) as H1.
  pose proof (H self [] NetConnectionError ConnectionFailure eq_refl) as H2.
  cbn in H1, H2. congruence.
Qed.

(** C4, amended.  Each failure is caught by the handler of its exception
    class, which writes its own error line to the log (the status code
    for an error status, the exception text for a body that is no JSON
    and for any other transport error), and every failure is returned to
    the caller as the same value [None]: the kinds differ in the log,
    not in the result. *)
Theorem failure_kinds_logged_then_none (self : CoinGeckoAPI)
    (coin_ids : list string) (o : net_outcome) (k : failure_kind) :
  failure_kind_of o = Some k ->
  exists error_line,
    fetch_prices self coin_ids o =
      ([Get (base_url self +:+ "/simple/price")
            [("ids", join "," coin_ids); ("vs_currencies", "usd");
             ("include_24hr_change", "true")] (timeout self);
        Log ERROR error_line], Ok PNone) /\
    match k with
    | Timeout => error_line = "Request timed out"
    | ConnectionFailure =>
        error_line = "Connection error - check your internet connection"
    | HTTPStatusError code => error_line = "HTTP error: " +:+ pretty code
    | ParseError => exists msg, error_line = "Request failed: " +:+ msg
    | OtherTransportError msg => error_line = "Request failed: " +:+ msg
    end.
Proof.
  unfold fetch_prices.
  destruct o as [ | | msg | | code b]; simpl; intros Hk; try discriminate.
  - injection Hk as <-. eexists; split; reflexivity.
  - injection Hk as <-. eexists; split; reflexivity.
  - injection Hk as <-. eexists; split; reflexivity.
  - destruct ((400 <=? code) && (code <? 600)).
    + injection Hk as <-. eexists; split; reflexivity.
    + destruct b as [msg | v]; [ | discriminate].
      injection Hk as <-. eexists; split; [reflexivity | eauto].
Qed.

Lemma failure_kinds_logged_then_none_witness :
  failure_kind_of (NetResponse 429 (Parsed PNone)) = Some (HTTPStatusError 429) /\
  exists error_line,
    fetch_prices {| base_url := "https://api.coingecko.com/api/v3"; timeout := 10 |}
                 ["bitcoin"] (NetResponse 429 (Parsed PNone)) =
      ([Get "https://api.coingecko.com/api/v3/simple/price"
            [("ids", "bitcoin"); ("vs_currencies", "usd");
             ("include_24hr_change", "true")] 10;
        Log ERROR error_line], Ok PNone) /\
    error_line = "HTTP error: 429".
Proof.
  split; [reflexivity | ].
  exact (failure_kinds_logged_then_none
           {| base_url := "https://api.coingecko.com/api/v3"; timeout := 10 |}
           ["bitcoin"] (NetResponse 429 (Parsed PNone)) (HTTPStatusError 429) eq_refl).
Defined.

(** ** [main] *)

Lemma split_comma_nonempty s : split_comma s <> [].
Proof.
  destruct s as [ | c s]; cbn; [discriminate | ].
  destruct (Ascii.eqb c ","); [discriminate | ].
  destruct (split_comma s); discriminate.
Qed.

(** C10, as the claim has it: an interval of zero, and a coin list with
    nothing in it, would be refused before the loop starts.  With
    [--interval 0] the loop runs, one request after the other with sleeps
    of zero seconds; with [--coins ""] the list is the single empty
    identifier and the table is rendered with one nameless row. *)
Lemma zero_interval_and_empty_coins_enter_loop :
  main "bitcoin" 0 [Sample.at_noon NetTimeout; Sample.at_noon NetTimeout] =
    ([Log INFO "Starting Crypto Dashboard";
      Log INFO "Tracking: bitcoin";
      request (startup "bitcoin" 0);
      Log ERROR "Request timed out";
      Print "Failed to fetch prices. Retrying in 0s...";
      Log WARNING "Failed to fetch prices";
      Sleep 0;
      request (startup "bitcoin" 0);
      Log ERROR "Request timed out";
      Print "Failed to fetch prices. Retrying in 0s...";
      Log WARNING "Failed to fetch prices";
      Sleep 0], Running) /\
  main "" 10 [Sample.answers (PDict Sample.quotes)] =
    ([Log INFO "Starting Crypto Dashboard";
      Log INFO "Tracking: ";
      request (startup "" 10);
      Clear;
      Print rule;
      Print header;
      Print rule;
      Print (row_line "" "N/A" "N/A");
      Print rule;
      Print (nl +:+ "Last updated: 2024-05-01 12:00:00");
      Print "Press Ctrl+C to exit";
      Sleep 10], Running).
Proof.
  split; vm_compute; reflexivity.
Qed.

(** C10, amended.  [main] validates nothing: whatever the interval (zero
    and negative ones too) and whatever the [--coins] string, it builds
    the configuration and enters the loop, whose first act is the request
    for the listed identifiers.  The list split from [--coins] is never
    empty.  With an interval of zero, failed cycles follow one another
    with sleeps of zero seconds and the loop keeps running. *)
Theorem main_validates_nothing (coins_arg : string) (interval : Z) :
  let self := startup coins_arg interval in
  coins (config self) <> [] /\
  update_interval (config self) = interval /\
  (forall c rest, exists t st,
     main coins_arg interval (c :: rest) =
       (Log INFO "Starting Crypto Dashboard"
          :: Log INFO ("Tracking: " +:+ join ", " (coins (config self)))
          :: request self :: t, st)) /\
  (interval = 0 ->
   forall fails,
     Forall (fun c => failed (net c) /\ sleep_interrupted c = false) fails ->
     exists error_lines,
       length error_lines = length fails /\
       main coins_arg interval fails =
         ([Log INFO "Starting Crypto Dashboard";
           Log INFO ("Tracking: " +:+ join ", " (coins (config self)))]
            ++ flat_map (fun error_line =>
                           [request self; Log ERROR error_line;
                            Print "Failed to fetch prices. Retrying in 0s...";
                            Log WARNING "Failed to fetch prices"; Sleep 0])
                        error_lines,
          Running)).
Proof.
  intros self. split; [ | split; [reflexivity | split]].
  - cbn. intros H. apply map_eq_nil in H. now apply split_comma_nonempty in H.
  - intros c rest.
    destruct (while_true_starts_with_request self c rest) as (t & r & Hw).
    change (main coins_arg interval (c :: rest)) with (run self (c :: rest)).
    unfold run. rewrite Hw.
    destruct r as [[] | ]; cbn; eauto.
  - intros -> fails Hf.
    assert (Hi : 0 <= update_interval (config self) <= max_sleep_seconds)
      by (vm_compute; split; discriminate).
    destruct (failed_cycles self fails [] Hi Hf) as (msgs & Hlen & Hw).
    exists msgs. split; [exact Hlen | ].
    change (main coins_arg 0 fails) with (run self fails).
    unfold run. rewrite app_nil_r in Hw. rewrite Hw. cbn [while_true fst snd].
    rewrite app_nil_r. reflexivity.
Qed.

Lemma main_validates_nothing_witness :
  exists error_lines,
    length error_lines = 1%nat /\
    main "bitcoin, ethereum" 0 [Sample.at_noon NetTimeout] =
      ([Log INFO "Starting Crypto Dashboard";
        Log INFO "Tracking: bitcoin, ethereum"]
         ++ flat_map (fun error_line =>
                        [request (startup "bitcoin, ethereum" 0);
                         Log ERROR error_line;
                         Print "Failed to fetch prices. Retrying in 0s...";
                         Log WARNING "Failed to fetch prices"; Sleep 0])
                     error_lines,
       Running).
Proof.
  apply (proj2 (proj2 (proj2 (main_validates_nothing "bitcoin, ethereum" 0)))
           eq_refl [Sample.at_noon NetTimeout]).
  repeat constructor. unfold failed. cbn. eauto.
Defined.

(** * Further properties *)

(** ** The coin list of [main] *)

Lemma join_split_comma s : join "," (split_comma s) = s.
Proof.
  unfold join. induction s as [ | c s IH]; [reflexivity | ].
  cbn [split_comma]. destruct (Ascii.eqb_spec c ","%char) as [-> | Hc].
  - pose proof (split_comma_nonempty s) as Hne.
    cbn [String.concat]. destruct (split_comma s) as [ | h t]; [easy | ].
    cbn. now rewrite <- IH.
  - destruct (split_comma s) as [ | h t] eqn:E.
    + now apply split_comma_nonempty in E.
    + rewrite <- IH. now destruct t.
Qed.

Lemma split_comma_length s : length (split_comma s) = S (commas s).
Proof.
  induction s as [ | c s IH]; [reflexivity | ].
  cbn [split_comma commas]. destruct (Ascii.eqb c ","%char).
  - cbn. now rewrite IH.
  - destruct (split_comma s) as [ | h t]; cbn in *; [discriminate | exact IH].
Qed.

Lemma split_comma_piece p rest :
  commas p = 0%nat ->
  split_comma (p +:+ String ","%char rest) = p :: split_comma rest.
Proof.
  induction p as [ | c p IH]; intros Hp; [reflexivity | ].
  cbn [commas] in Hp. change (String c p +:+ String ","%char rest)
    with (String c (p +:+ String ","%char rest)). cbn [split_comma].
  destruct (Ascii.eqb c ","%char); [discriminate | ].
  now rewrite IH.
Qed.

Lemma split_comma_single p : commas p = 0%nat -> split_comma p = [p].
Proof.
  induction p as [ | c p IH]; intros Hp; [reflexivity | ].
  cbn [commas] in Hp. cbn [split_comma].
  destruct (Ascii.eqb c ","%char); [discriminate | ].
  now rewrite IH.
Qed.

Lemma split_comma_join (ids : list string) :
  ids <> [] -> Forall (fun id => commas id = 0%nat) ids ->
  split_comma (join "," ids) = ids.
Proof.
  unfold join. induction ids as [ | id ids IH]; [easy | ].
  intros _ Hall. apply Forall_cons_iff in Hall as [Hid Hids].
  destruct ids as [ | id' ids].
  - now apply split_comma_single.
  - change (String.concat "," (id :: id' :: ids))
      with (id +:+ String ","%char (String.concat "," (id' :: ids))).
    rewrite split_comma_piece by exact Hid. f_equal. now apply IH.
Qed.

Lemma rstrip_cons c s :
  rstrip (String c s) =
    match rstrip s with
    | EmptyString => if is_space c then EmptyString else String c EmptyString
    | t => String c t
    end.
Proof. reflexivity. Qed.

Lemma rstrip_idempotent s : rstrip (rstrip s) = rstrip s.
Proof.
  induction s as [ | c s IH]; [reflexivity | ].
  rewrite rstrip_cons. destruct (rstrip s) as [ | c' t] eqn:E.
  - destruct (is_space c) eqn:Hc; [reflexivity | ].
    rewrite rstrip_cons. cbn [rstrip]. now rewrite Hc.
  - rewrite rstrip_cons, IH. reflexivity.
Qed.

Lemma lstrip_shorter t : (String.length (lstrip t) <= String.length t)%nat.
Proof.
  induction t as [ | a t IHt]; cbn; [lia | ]. destruct (is_space a); cbn; lia.
Qed.

Lemma lstrip_rstrip s :
  lstrip s = s -> lstrip (rstrip s) = rstrip s.
Proof.
  destruct s as [ | c s]; [reflexivity | ].
  rewrite rstrip_cons. cbn [lstrip]. destruct (is_space c) eqn:Hc.
  - intros Hl. exfalso. pose proof (lstrip_shorter s) as Hlen.
    rewrite Hl in Hlen. cbn in Hlen. lia.
  - intros _. destruct (rstrip s); cbn [lstrip]; now rewrite Hc.
Qed.

Lemma lstrip_idempotent s : lstrip (lstrip s) = lstrip s.
Proof.
  induction s as [ | c s IH]; [reflexivity | ].
  cbn [lstrip]. destruct (is_space c) eqn:Hc; [exact IH | ]. cbn. now rewrite Hc.
Qed.

Lemma strip_idempotent s : strip (strip s) = strip s.
Proof.
  unfold strip. rewrite (lstrip_rstrip (lstrip s)) by apply lstrip_idempotent.
  apply rstrip_idempotent.
Qed.

(** X1.  The identifiers that [main] configures carry no blank at either
    end (stripping one again changes nothing), and there is one more of
    them than there are commas in the [--coins] argument. *)
Theorem main_coins_stripped_and_counted (coins_arg : string) (interval : Z) :
  Forall (fun coin_id => strip coin_id = coin_id)
         (coins (config (startup coins_arg interval))) /\
  length (coins (config (startup coins_arg interval))) = S (commas coins_arg).
Proof.
  cbn [startup config coins]. split.
  - apply Forall_map, Forall_forall. intros p _. apply strip_idempotent.
  - now rewrite length_map, split_comma_length.
Qed.

(** X2.  Splitting undoes joining: when [--coins] is a non-empty list of
    ASCII identifiers joined by commas, none of which holds a comma or
    has a blank at either end, [main] configures exactly these
    identifiers in this order, and the [ids] parameter of its requests is
    the argument again. *)
Theorem main_recovers_coin_list (ids : list string) (interval : Z) :
  ids <> [] ->
  Forall (fun id => ascii_only id = true /\ commas id = 0%nat /\ strip id = id) ids ->
  coins (config (startup (join "," ids) interval)) = ids /\
  request (startup (join "," ids) interval) =
    Get "https://api.coingecko.com/api/v3/simple/price"
        [("ids", join "," ids); ("vs_currencies", "usd");
         ("include_24hr_change", "true")] 10.
Proof.
  intros Hne Hall.
  assert (Hc : coins (config (startup (join "," ids) interval)) = ids).
  { cbn [startup config coins]. rewrite split_comma_join.
    - clear Hne. induction Hall as [ | id ids (_ & _ & Hid) _ IH]; [reflexivity | ].
      cbn [map]. now rewrite Hid, IH.
    - exact Hne.
    - eapply Forall_impl; [exact Hall | ]. now intros id (_ & H & _). }
  split; [exact Hc | ]. unfold request. rewrite Hc. reflexivity.
Qed.

Lemma main_recovers_coin_list_witness :
  coins (config (startup (join "," ["bitcoin"; "ethereum"; "solana"]) 30))
    = ["bitcoin"; "ethereum"; "solana"] /\
  request (startup (join "," ["bitcoin"; "ethereum"; "solana"]) 30) =
    Get "https://api.coingecko.com/api/v3/simple/price"
        [("ids", join "," ["bitcoin"; "ethereum"; "solana"]);
         ("vs_currencies", "usd"); ("include_24hr_change", "true")] 10.
Proof.
  apply (main_recovers_coin_list ["bitcoin"; "ethereum"; "solana"] 30).
  - discriminate.
  - repeat constructor.
Defined.

(** X3.  Joining undoes splitting: when the [--coins] argument is ASCII
    and none of its pieces has a blank at either end, the [ids] parameter
    that the requests of [main] carry is the argument itself, character
    for character. *)
Theorem main_request_ids_is_argument (coins_arg : string) (interval : Z) :
  ascii_only coins_arg = true ->
  Forall (fun piece => strip piece = piece) (split_comma coins_arg) ->
  request (startup coins_arg interval) =
    Get "https://api.coingecko.com/api/v3/simple/price"
        [("ids", coins_arg); ("vs_currencies", "usd");
         ("include_24hr_change", "true")] 10.
Proof.
  intros _ Hall. unfold request. cbn [startup config coins api base_url timeout].
  replace (map strip (split_comma coins_arg)) with (split_comma coins_arg).
  - now rewrite join_split_comma.
  - induction Hall as [ | p l Hp _ IH]; [reflexivity | ].
    cbn [map]. now rewrite Hp, <- IH.
Qed.

Lemma main_request_ids_is_argument_witness :
  request (startup "bitcoin,,dogecoin" 10) =
    Get "https://api.coingecko.com/api/v3/simple/price"
        [("ids", "bitcoin,,dogecoin"); ("vs_currencies", "usd");
         ("include_24hr_change", "true")] 10.
Proof.
  apply (main_request_ids_is_argument "bitcoin,,dogecoin" 10).
  - reflexivity.
  - repeat constructor.
Defined.

(** ** The client *)

Lemma bind_pair {A B} (t : list event) (r : res A) (k : A -> io B) :
  (t, r) ≫= k =
    match r with
    | Ok a => (t ++ fst (k a), snd (k a))
    | Raise e => (t, Raise e)
    end.
Proof.
  unfold mbind, io_mbind. destruct r as [a | e]; [ | reflexivity].
  now destruct (k a).
Qed.

Lemma fetch_prices_shape (self : CoinGeckoAPI) (coin_ids : list string)
    (o : net_outcome) :
  exists t r,
    fetch_prices self coin_ids o =
      (Get (base_url self +:+ "/simple/price")
           [("ids", join "," coin_ids); ("vs_currencies", "usd");
            ("include_24hr_change", "true")] (timeout self) :: t, r) /\
    (t = [] \/ exists error_line, t = [Log ERROR error_line]).
Proof.
  unfold fetch_prices.
  destruct o as [ | | msg | | code b]; cbn; try (eexists _, _; split; [reflexivity | eauto]).
  destruct ((400 <=? code) && (code <? 600)); cbn;
    [eexists _, _; split; [reflexivity | eauto] | ].
  destruct b as [msg | v]; cbn; eexists _, _; (split; [reflexivity | eauto]).
Qed.


(** X5.  [fetch_prices] hands a value other than [None] to its caller in
    one case only: the response carries a status for which
    [raise_for_status] stays silent and a body that is JSON; the value is
    then that body, untouched, and nothing is logged.  In particular an
    error status wins over a well-formed body. *)
Theorem fetch_prices_value_is_the_body (self : CoinGeckoAPI)
    (coin_ids : list string) (o : net_outcome) (v : pyval) :
  v <> PNone ->
  (snd (fetch_prices self coin_ids o) = Ok v <->
   exists code, o = NetResponse code (Parsed v) /\ (code < 400 \/ 600 <= code)) /\
  (snd (fetch_prices self coin_ids o) = Ok v ->
   fst (fetch_prices self coin_ids o) =
     [Get (base_url self +:+ "/simple/price")
          [("ids", join "," coin_ids); ("vs_currencies", "usd");
           ("include_24hr_change", "true")] (timeout self)]).
Proof.
  intros Hv. unfold fetch_prices.
  assert (Hno : forall (r : res pyval) (t : list event) (P : Prop),
            (r = Ok PNone \/ exists e, r = Raise e) -> ~ P ->
            (r = Ok v <-> P) /\ (r = Ok v -> t = [])).
  { intros r t P Hr HP. split; [split | ].
    - intros ->. destruct Hr as [H | [e H]]; congruence.
    - intros HP'. now destruct HP.
    - intros ->. destruct Hr as [H | [e H]]; congruence. }
  destruct o as [ | | msg | | code b]; cbn.
  - split; [ | congruence]. apply (Hno _ []); [now left | ]. now intros (c & [=] & _).
  - split; [ | congruence]. apply (Hno _ []); [now left | ]. now intros (c & [=] & _).
  - split; [ | congruence]. apply (Hno _ []); [now left | ]. now intros (c & [=] & _).
  - split; [ | congruence]. apply (Hno _ []); [right; eauto | ]. now intros (c & [=] & _).
  - destruct ((400 <=? code) && (code <? 600)) eqn:Hc; cbn.
    + split; [ | congruence]. apply (Hno _ []); [now left | ].
      intros (c & [= <-] & Hr). lia.
    + destruct b as [msg | v']; cbn.
      * split; [ | congruence]. apply (Hno _ []); [now left | ].
        now intros (c & [=] & _).
      * split; [split | reflexivity].
        -- intros [= <-]. exists code. split; [reflexivity | lia].
        -- intros (code' & [= <- <-] & _). reflexivity.
Qed.

Lemma fetch_prices_value_is_the_body_witness :
  (snd (fetch_prices {| base_url := "https://api.coingecko.com/api/v3"; timeout := 10 |}
          ["bitcoin"] (NetResponse 200 (Parsed (PDict Sample.quotes))))
     = Ok (PDict Sample.quotes) <->
   exists code,
     NetResponse 200 (Parsed (PDict Sample.quotes))
       = NetResponse code (Parsed (PDict Sample.quotes)) /\
     (code < 400 \/ 600 <= code)) /\
  (snd (fetch_prices {| base_url := "https://api.coingecko.com/api/v3"; timeout := 10 |}
          ["bitcoin"] (NetResponse 200 (Parsed (PDict Sample.quotes))))
     = Ok (PDict Sample.quotes) ->
   fst (fetch_prices {| base_url := "https://api.coingecko.com/api/v3"; timeout := 10 |}
          ["bitcoin"] (NetResponse 200 (Parsed (PDict Sample.quotes)))) =
     [Get ("https://api.coingecko.com/api/v3" +:+ "/simple/price")
          [("ids", join "," ["bitcoin"]); ("vs_currencies", "usd");
           ("include_24hr_change", "true")] 10]).
Proof.
  apply (fetch_prices_value_is_the_body
           {| base_url := "https://api.coingecko.com/api/v3"; timeout := 10 |}
           ["bitcoin"] (NetResponse 200 (Parsed (PDict Sample.quotes)))
           (PDict Sample.quotes)).
  discriminate.
Defined.

(** ** What [display] does to the outside *)

Lemma display_row_prints prices coin_id :
  exists lines,
    fst (display_row prices coin_id) = map Print lines /\
    (length lines <= 1)%nat.
Proof.
  unfold display_row. destruct (quote_cells prices coin_id) as [[p c] | e].
  - exists [row_line coin_id p c]. split; [reflexivity | cbn; lia].
  - exists []. split; [reflexivity | cbn; lia].
Qed.

Lemma for_each_cons {A} (x : A) (l : list A) (body : A -> io unit) :
  for_each (x :: l) body =
    match body x with
    | (t, Ok _) => (t ++ fst (for_each l body), snd (for_each l body))
    | (t, Raise e) => (t, Raise e)
    end.
Proof.
  cbn [for_each]. destruct (body x) as [t [[] | e]]; [ | reflexivity].
  rewrite bind_pair. reflexivity.
Qed.

Lemma for_each_prints prices ids :
  exists lines,
    fst (for_each ids (display_row prices)) = map Print lines /\
    (length lines <= length ids)%nat.
Proof.
  induction ids as [ | id ids (lines & IH & Hlen)].
  - exists []. split; [reflexivity | cbn; lia].
  - rewrite for_each_cons.
    destruct (display_row_prints prices id) as (l1 & H1 & Hl1).
    destruct (display_row prices id) as [t [[] | e]]; cbn [fst] in *.
    + exists (l1 ++ lines). rewrite H1, IH, map_app.
      split; [reflexivity | rewrite length_app; cbn; lia].
    + exists l1. split; [exact H1 | cbn; lia].
Qed.

Lemma display_trace (self : CryptoDashboard) (prices : pyval) (now : string) :
  exists lines, fst (display self prices now) = Clear :: map Print lines.
Proof.
  rewrite display_shape.
  destruct (for_each_prints prices (coins (config self))) as (lines & Hl & _).
  destruct (for_each _ _) as [t [[] | e]]; cbn [fst] in *; subst t.
  - exists ([rule; header; rule] ++ lines
            ++ [rule; nl +:+ "Last updated: " +:+ now; "Press Ctrl+C to exit"]).
    cbn [app map]. now rewrite map_app.
  - now exists ([rule; header; rule] ++ lines).
Qed.

(** X6.  Whatever it is given, a well-formed QuoteSet or a value that
    makes it raise, [display] only touches the terminal: it clears the
    screen, once and first, and then prints lines, at most six more than
    there are configured identifiers; it never requests, sleeps, logs or
    closes the session. *)
Theorem display_only_clears_and_prints (self : CryptoDashboard)
    (prices : pyval) (now : string) :
  exists lines,
    fst (display self prices now) = Clear :: map Print lines /\
    (length lines <= length (coins (config self)) + 6)%nat.
Proof.
  rewrite display_shape.
  destruct (for_each_prints prices (coins (config self))) as (lines & Hl & Hlen).
  destruct (for_each _ _) as [t [[] | e]]; cbn [fst] in *; subst t.
  - exists ([rule; header; rule] ++ lines
            ++ [rule; nl +:+ "Last updated: " +:+ now; "Press Ctrl+C to exit"]).
    split; [ | rewrite !length_app; cbn; lia].
    cbn [app map]. rewrite map_app. reflexivity.
  - exists ([rule; header; rule] ++ lines).
    split; [reflexivity | rewrite length_app; cbn; lia].
Qed.

(** ** The shape of a cycle *)

Lemma sleep_shape secs interrupted :
  (exists e, sleep secs interrupted = ([], Raise e) /\ e <> KeyboardInterrupt) \/
  sleep secs interrupted = ([Sleep secs], Ok tt) \/
  sleep secs interrupted = ([Sleep secs], Raise KeyboardInterrupt).
Proof.
  unfold sleep. destruct (secs <? 0); [left; eexists; split; [reflexivity | easy] | ].
  destruct (max_sleep_seconds <? secs);
    [left; eexists; split; [reflexivity | easy] | ].
  destruct interrupted; cbn; auto.
Qed.

Lemma quiet_prints lines : Forall quiet (map Print lines).
Proof. induction lines; constructor; cbn; auto. Qed.

Lemma cycle_unfold self c :
  cycle self c =
    match fetch_prices (api self) (coins (config self)) (net c) with
    | (t, Raise e) => (t, Raise e)
    | (t, Ok prices) =>
        match (if truthy prices then display self prices (now c)
               else ([Print (retry_notice self);
                      Log WARNING "Failed to fetch prices"], Ok tt)) with
        | (t2, Raise e) => (t ++ t2, Raise e)
        | (t2, Ok _) =>
            (t ++ t2 ++ fst (sleep (update_interval (config self))
                                   (sleep_interrupted c)),
             snd (sleep (update_interval (config self)) (sleep_interrupted c)))
        end
    end.
Proof.
  unfold cycle.
  destruct (fetch_prices _ _ _) as [t [prices | e]]; [ | reflexivity].
  rewrite bind_pair.
  destruct (truthy prices).
  - destruct (display self prices (now c)) as [t2 [[] | e]];
      rewrite bind_pair; reflexivity.
  - unfold mbind, io_mbind, print, log, emit.
    destruct (sleep _ _) as [t3 r3]. reflexivity.
Qed.

(** A cycle is its request, then events that are neither a request nor a
    sleep nor a close, then possibly the sleep. *)
Lemma cycle_shape self c :
  exists mid,
    Forall quiet mid /\
    (cycle self c =
       (request self :: mid ++ [Sleep (update_interval (config self))], Ok tt) \/
     cycle self c =
       (request self :: mid ++ [Sleep (update_interval (config self))],
        Raise KeyboardInterrupt) \/
     exists e, cycle self c = (request self :: mid, Raise e)).
Proof.
  rewrite cycle_unfold.
  destruct (fetch_prices_shape (api self) (coins (config self)) (net c))
    as (t & r & -> & Ht).
  fold (request self).
  assert (Hqt : Forall quiet t)
    by (destruct Ht as [-> | [msg ->]]; repeat constructor).
  destruct r as [prices | e]; [ | exists t; split; [exact Hqt | eauto]].
  assert (Hmid : exists t2 r2,
            (if truthy prices then display self prices (now c)
             else ([Print (retry_notice self);
                    Log WARNING "Failed to fetch prices"], Ok tt)) = (t2, r2)
            /\ Forall quiet t2).
  { destruct (truthy prices).
    - destruct (display_trace self prices (now c)) as (lines & Hd).
      destruct (display self prices (now c)) as [t2 r2]. cbn [fst] in Hd. subst t2.
      eexists _, _. split; [reflexivity | ].
      constructor; [exact I | apply quiet_prints].
    - eexists _, _. split; [reflexivity | repeat constructor]. }
  destruct Hmid as (t2 & r2 & -> & Hq2).
  exists (t ++ t2). split; [apply Forall_app; auto | ].
  destruct r2 as [[] | e]; [ | right; right; exists e; reflexivity].
  destruct (sleep_shape (update_interval (config self)) (sleep_interrupted c))
    as [(e & -> & _) | [-> | ->]]; cbn [fst snd].
  - right. right. exists e. now rewrite app_nil_r.
  - left. now rewrite app_assoc.
  - right. left. now rewrite app_assoc.
Qed.

(** ** The loop as a sequence of cycles *)

Lemma while_true_app body pre rest :
  while_true body (pre ++ rest) =
    match snd (while_true body pre) with
    | None => (fst (while_true body pre) ++ fst (while_true body rest),
               snd (while_true body rest))
    | Some e => while_true body pre
    end.
Proof.
  induction pre as [ | c pre IH]; cbn [app while_true].
  - cbn. now destruct (while_true body rest).
  - destruct (body c) as [t [[] | e]]; [ | reflexivity].
    rewrite IH. destruct (while_true body pre) as [t1 [e | ]]; cbn [fst snd].
    + reflexivity.
    + destruct (while_true body rest) as [t2 r2]. cbn. now rewrite app_assoc.
Qed.

Lemma while_true_cycles self envs :
  exists (mids : list (list event)) (last : list event),
    fst (while_true (cycle self) envs) = flat_map (full_cycle self) mids ++ last /\
    Forall (Forall quiet) mids /\
    match snd (while_true (cycle self) envs) with
    | None => last = [] /\ length mids = length envs
    | Some e =>
        (length mids < length envs)%nat /\
        exists mid,
          Forall quiet mid /\
          (last = request self :: mid \/
           e = KeyboardInterrupt /\ last = full_cycle self mid)
    end.
Proof.
  induction envs as [ | c envs (mids & last & Ht & Hq & Hr)].
  - exists [], []. cbn. auto.
  - cbn [while_true].
    destruct (cycle_shape self c) as (mid & Hmid & [Hc | [Hc | [e Hc]]]); rewrite Hc.
    + destruct (while_true (cycle self) envs) as [t r]. cbn [fst snd] in *.
      exists (mid :: mids), last. split; [ | split].
      * cbn [flat_map]. rewrite Ht. unfold full_cycle at 2.
        now rewrite <- !app_assoc.
      * now constructor.
      * destruct r as [e | ].
        -- destruct Hr as [Hlen Hlast]. split; [cbn; lia | exact Hlast].
        -- destruct Hr as [-> Hlen]. split; [reflexivity | cbn; lia].
    + exists [], (full_cycle self mid). cbn [fst snd flat_map app].
      split; [reflexivity | ]. split; [constructor | ].
      split; [cbn; lia | ]. exists mid. auto.
    + exists [], (request self :: mid). cbn [fst snd flat_map app].
      split; [reflexivity | ]. split; [constructor | ].
      split; [cbn; lia | ]. exists mid. auto.
Qed.

(** X7.  [run] is strictly sequential.  After the two starting lines of
    the log its trace is a row of full cycles, each one request, then
    terminal and log output only, then one sleep of the configured
    interval, and a tail.  While the loop is running the tail is empty
    and there are as many full cycles as turns taken.  When Ctrl+C
    stopped it, the tail is the cycle in progress (cut after the request,
    its output or its sleep), the farewell, its log line and the closing
    of the session.  When another exception ended it, the tail is the
    cycle in progress, cut before its sleep, and the closing of the
    session.  The session is closed on these two ways out only, and
    last. *)
Theorem run_is_a_sequence_of_cycles (self : CryptoDashboard)
    (envs : list cycle_env) :
  exists (mids : list (list event)) (last : list event),
    fst (run self envs) =
      start_lines self ++ flat_map (full_cycle self) mids ++ last /\
    Forall (Forall quiet) mids /\
    match snd (run self envs) with
    | Running => last = [] /\ length mids = length envs
    | Stopped =>
        (length mids < length envs)%nat /\
        exists mid,
          Forall quiet mid /\
          (last = request self :: mid ++ farewell \/
           last = full_cycle self mid ++ farewell)
    | Crashed e =>
        (length mids < length envs)%nat /\
        e <> KeyboardInterrupt /\
        exists mid, Forall quiet mid /\ last = request self :: mid ++ [Close]
    end.
Proof.
  destruct (while_true_cycles self envs) as (mids & last & Ht & Hq & Hr).
  unfold run. destruct (while_true (cycle self) envs) as [t [e | ]];
    cbn [fst snd] in *; subst t.
  - destruct Hr as (Hlen & mid & Hmid & Hlast).
    assert (Hcrash : e <> KeyboardInterrupt ->
              last = request self :: mid).
    { intros He. destruct Hlast as [H | [H _]]; [exact H | contradiction]. }
    destruct e; cbn [fst snd].
    1-4: (exists mids, (last ++ [Close]); split;
          [unfold start_lines; now rewrite <- !app_assoc
          | split; [exact Hq | split; [exact Hlen | split; [discriminate | ]]];
            exists mid; split; [exact Hmid | ];
            rewrite Hcrash by discriminate; reflexivity]).
    exists mids, (last ++ farewell). split; [ | split; [exact Hq | split; [exact Hlen | ]]].
    + unfold start_lines, farewell. now rewrite <- !app_assoc.
    + exists mid. split; [exact Hmid | ].
      destruct Hlast as [-> | [_ ->]]; [left | right]; reflexivity.
  - destruct Hr as [-> Hlen]. exists mids, []. cbn [fst snd].
    split; [reflexivity | auto].
Qed.

(** X8.  The trace over a longer environment extends the trace over a
    prefix of it: as long as the loop is running after the prefix, the
    trace so far is kept and the rest of the environment decides how it
    goes on; once the loop has ended, by Ctrl+C or by an exception, what
    the environment would have held next changes nothing. *)
Theorem run_extends_over_prefix (self : CryptoDashboard)
    (pre rest : list cycle_env) :
  (snd (run self pre) = Running ->
   fst (run self (pre ++ rest)) =
     fst (run self pre)
       ++ skipn (length (start_lines self)) (fst (run self rest)) /\
   snd (run self (pre ++ rest)) = snd (run self rest)) /\
  (snd (run self pre) <> Running -> run self (pre ++ rest) = run self pre).
Proof.
  unfold run. rewrite while_true_app.
  destruct (while_true (cycle self) pre) as [t1 [e | ]]; cbn [fst snd].
  - split; [ | reflexivity]. destruct e; discriminate.
  - split; [intros _ | intros H; now destruct H].
    destruct (while_true (cycle self) rest) as [t2 [e | ]]; cbn [fst snd].
    + destruct e; cbn [fst snd skipn length start_lines app];
        (split; [now rewrite <- ?app_assoc | reflexivity]).
    + cbn [skipn length start_lines app]. split; [now rewrite <- ?app_assoc | reflexivity].
Qed.

Lemma run_extends_over_prefix_witness :
  let self := Sample.dashboard ["bitcoin"] 10 in
  let pre := [Sample.at_noon NetTimeout] in
  let rest := [Sample.answers (PDict Sample.quotes)] in
  fst (run self (pre ++ rest)) =
    fst (run self pre) ++ skipn (length (start_lines self)) (fst (run self rest)) /\
  snd (run self (pre ++ rest)) = snd (run self rest).
Proof.
  intros self pre rest.
  apply (proj1 (run_extends_over_prefix self pre rest)). reflexivity.
Defined.

(** ** Ctrl+C *)

Lemma cycle_interrupted_at_fetch self c :
  net c = NetInterrupt ->
  cycle self c = ([request self], Raise KeyboardInterrupt).
Proof.
  intros Hn. unfold cycle, fetch_prices. now rewrite Hn.
Qed.

Lemma cycle_interrupted_in_sleep self c t :
  sleep_interrupted c = true ->
  cycle self (uninterrupted c) = (t, Ok tt) ->
  cycle self c = (t, Raise KeyboardInterrupt).
Proof.
  intros Hi. rewrite !cycle_unfold. cbn [uninterrupted net now sleep_interrupted].
  rewrite Hi.
  destruct (fetch_prices _ _ _) as [t1 [prices | e]]; [ | discriminate].
  destruct (if truthy prices then _ else _) as [t2 [[] | e]]; [ | discriminate].
  unfold sleep. destruct (_ <? 0); [discriminate | ].
  destruct (max_sleep_seconds <? _); [discriminate | ].
  cbn. now intros [= <-].
Qed.

(** X9.  Ctrl+C ends the run in good order.  When it arrives during the
    request, or during the sleep of a cycle that was otherwise complete,
    the loop having been running until then, [run] prints the farewell,
    logs that the user stopped the dashboard, closes the session and
    stops; the cycle in progress is on the trace up to the request, or
    whole with its sleep begun, and nothing of what the environment held
    next is used: no further request is made. *)
Theorem interrupt_ends_run (self : CryptoDashboard) (pre rest : list cycle_env)
    (c : cycle_env) (tc : list event) :
  snd (run self pre) = Running ->
  (net c = NetInterrupt /\ tc = [request self]) \/
  (sleep_interrupted c = true /\ cycle self (uninterrupted c) = (tc, Ok tt)) ->
  run self (pre ++ c :: rest) = (fst (run self pre) ++ tc ++ farewell, Stopped).
Proof.
  intros Hpre Hc.
  assert (Hcy : cycle self c = (tc, Raise KeyboardInterrupt)).
  { destruct Hc as [[Hn ->] | [Hi Hu]].
    - now apply cycle_interrupted_at_fetch.
    - now apply cycle_interrupted_in_sleep. }
  unfold run in *. rewrite while_true_app.
  destruct (while_true (cycle self) pre) as [t1 [e | ]]; cbn [fst snd] in *.
  - destruct e; discriminate.
  - cbn [while_true]. rewrite Hcy. cbn [fst snd].
    unfold farewell. now rewrite <- !app_assoc.
Qed.

Lemma interrupt_ends_run_witness :
  let self := Sample.dashboard ["bitcoin"] 10 in
  let c := {| net := NetTimeout; now := "2024-05-01 12:00:10";
              sleep_interrupted := true |} in
  run self ([Sample.at_noon NetConnectionError] ++ c :: [Sample.at_noon NetTimeout]) =
    (fst (run self [Sample.at_noon NetConnectionError])
       ++ failed_cycle self "Request timed out" ++ farewell, Stopped).
Proof.
  intros self c.
  apply (interrupt_ends_run self [Sample.at_noon NetConnectionError]
           [Sample.at_noon NetTimeout] c (failed_cycle self "Request timed out")).
  - reflexivity.
  - right. split; reflexivity.
Defined.

(** ** Failed fetches and the terminal *)




(** ** What counts as fetched *)




(** ** A negative interval *)






(** ** Widths *)

Lemma py_len_app a b : py_len (a +:+ b) = (py_len a + py_len b)%nat.
Proof.
  induction a as [ | c a IH]; [reflexivity | ].
  change (String c a +:+ b) with (String c (a +:+ b)).
  cbn [py_len]. rewrite IH. lia.
Qed.

Lemma py_len_blanks n : py_len (repeat_str " " n) = n.
Proof.
  induction n as [ | n IH]; [reflexivity | ].
  change (repeat_str " " (S n)) with (" " +:+ repeat_str " " n).
  rewrite py_len_app, IH. reflexivity.
Qed.

Lemma py_len_rjust w s : py_len (rjust w s) = Nat.max w (py_len s).
Proof. unfold rjust. rewrite py_len_app, py_len_blanks. lia. Qed.

Lemma py_len_ljust w s : py_len (ljust w s) = Nat.max w (py_len s).
Proof. unfold ljust. rewrite py_len_app, py_len_blanks. lia. Qed.

Lemma rjust_wide w s : (w <= py_len s)%nat -> rjust w s = s.
Proof.
  intros H. unfold rjust. now replace (w - py_len s)%nat with 0%nat by lia.
Qed.

Lemma is_continuation_upper c : is_continuation (upper_ascii c) = is_continuation c.
Proof. destruct c as [[] [] [] [] [] [] [] []]; reflexivity. Qed.

Lemma is_continuation_lower c : is_continuation (lower_ascii c) = is_continuation c.
Proof. destruct c as [[] [] [] [] [] [] [] []]; reflexivity. Qed.

Lemma py_len_capitalize s : py_len (capitalize s) = py_len s.
Proof.
  destruct s as [ | c s]; [reflexivity | ].
  cbn [capitalize py_len]. rewrite is_continuation_upper. f_equal.
  induction s as [ | a s IH]; [reflexivity | ].
  cbn [map_str py_len]. now rewrite is_continuation_lower, IH.
Qed.

Lemma format_price_change_inv change s :
  format_price_change change = Ok s ->
  exists (up : bool) (text : string),
    s = (if up then Colors.GREEN else Colors.RED)
          +:+ (if up then up_arrow else down_arrow)
          +:+ " " +:+ rjust 7 text +:+ "%" +:+ Colors.RESET.
Proof.
  unfold format_price_change. cbv [mbind mret res_mbind res_ret res_bind].
  destruct (ge_zero change) as [up | e]; [ | discriminate].
  destruct (py_abs change) as [a | e]; [ | discriminate].
  destruct (format_2f false a) as [text | e]; [ | discriminate].
  intros [= <-]. now exists up, text.
Qed.

(** X13.  The change cell of a priced row is never padded.  Whatever
    [format_price_change] returns holds at least nineteen characters,
    colour codes, arrow, blank, the number in its field of seven, the
    percent sign and the reset code, so that the field of fifteen of the
    row adds no blank to it, whereas "N/A" gets twelve. *)
Theorem change_cell_is_never_padded (change : pyval) (s : string) :
  format_price_change change = Ok s ->
  (19 <= py_len s)%nat /\ rjust 15 s = s /\
  rjust 15 "N/A" = repeat_str " " 12 +:+ "N/A".
Proof.
  intros H. destruct (format_price_change_inv change s H) as (up & text & ->).
  assert (Hlen : (19 <= py_len ((if up then Colors.GREEN else Colors.RED)
                                 +:+ (if up then up_arrow else down_arrow)
                                 +:+ " " +:+ rjust 7 text +:+ "%" +:+ Colors.RESET))%nat).
  { rewrite !py_len_app, py_len_rjust.
    replace (py_len (if up then Colors.GREEN else Colors.RED)) with 5%nat
      by now destruct up.
    replace (py_len (if up then up_arrow else down_arrow)) with 1%nat
      by now destruct up.
    change (py_len " ") with 1%nat. change (py_len "%") with 1%nat.
    change (py_len Colors.RESET) with 4%nat. lia. }
  split; [exact Hlen | split; [ | reflexivity]].
  apply rjust_wide. lia.
Qed.

Lemma change_cell_is_never_padded_witness :
  (19 <= py_len (change_text false 123))%nat /\
  rjust 15 (change_text false 123) = change_text false 123 /\
  rjust 15 "N/A" = repeat_str " " 12 +:+ "N/A".
Proof.
  apply (change_cell_is_never_padded Sample.change_minus_1_23).
  reflexivity.
Defined.

(** X14.  A row is three fields of fifteen with a blank between them:
    for an ASCII identifier its length in characters is the sum of the
    three field lengths plus two, where a field is as long as its content
    or fifteen, whichever is more, and capitalizing the identifier
    changes nothing in its length.  So a row is never shorter than 47
    characters and is exactly 47 when the identifier and both cells fit
    their fields. *)
Theorem row_line_width (coin_id price_str change_str : string) :
  ascii_only coin_id = true ->
  py_len (row_line coin_id price_str change_str) =
    (Nat.max 15 (py_len coin_id) + Nat.max 15 (py_len price_str)
       + Nat.max 15 (py_len change_str) + 2)%nat /\
  ((py_len coin_id <= 15)%nat -> (py_len price_str <= 15)%nat ->
   (py_len change_str <= 15)%nat ->
   py_len (row_line coin_id price_str change_str) = 47%nat).
Proof.
  intros _.
  assert (H : py_len (row_line coin_id price_str change_str) =
              (Nat.max 15 (py_len coin_id) + Nat.max 15 (py_len price_str)
                 + Nat.max 15 (py_len change_str) + 2)%nat).
  { unfold row_line.
    rewrite !py_len_app, py_len_ljust, !py_len_rjust, py_len_capitalize.
    change (py_len " ") with 1%nat. lia. }
  split; [exact H | ]. intros H1 H2 H3. rewrite H. lia.
Qed.

Lemma row_line_width_witness :
  py_len (row_line "bitcoin" "N/A" "N/A") = 47%nat.
Proof.
  apply (proj2 (row_line_width "bitcoin" "N/A" "N/A" eq_refl)); vm_compute; lia.
Defined.

(** ** The price cell *)

Lemma format_2f_positive comma v q :
  decimal v q -> (0 < q)%Q ->
  exists n, format_2f comma v = Ok (fixed2 comma n) /\ 0 <= n /\
            (Qabs (inject_Z n - 100 * q) <= 1 # 2)%Q.
Proof.
  intros [[z | f q' Hq] Hz] Hpos.
  - destruct (float_of_int_exact z Hz) as (f & q0 & Hf & Hq & He & Ha).
    assert (Hz0 : 0 < z) by (unfold Qlt in Hpos; cbn in Hpos; lia).
    specialize (Ha ltac:(lia)).
    destruct f as [s | s | | s m e]; cbn in Hq; try discriminate;
      injection Hq as <-.
    + exfalso. unfold Qeq in He. cbn in He. lia.
    + cbn in Ha. injection Ha as <-.
      exists (hundredths m e). destruct (hundredths_near m e) as [H0 Hn].
      split; [cbn; rewrite Hf; reflexivity | split; [exact H0 | ]].
      now rewrite <- He.
  - destruct f as [s | s | | s m e]; cbn in Hq; try discriminate;
      injection Hq as <-.
    + now apply Qlt_irrefl in Hpos.
    + destruct s.
      * exfalso. pose proof (magnitude_pos m e) as Hm.
        apply (Qlt_irrefl 0). eapply Qlt_trans; [exact Hm | ].
        apply Qopp_lt_compat in Hpos. rewrite Qopp_opp in Hpos. exact Hpos.
      * exists (hundredths m e). destruct (hundredths_near m e) as [H0 Hn].
        split; [reflexivity | split; [exact H0 | exact Hn]].
Qed.

Lemma quote_cells_price m d coin_id price p price_str change_str :
  m !! coin_id = Some (PDict d) ->
  d !! "usd" = Some price -> decimal price p -> (0 < p)%Q ->
  quote_cells (PDict m) coin_id = Ok (price_str, change_str) ->
  exists text, format_2f true price = Ok text /\ price_str = "$" +:+ text.
Proof.
  intros Hm Hd Hdec Hpos Hc.
  destruct (quote_cells_available m d coin_id price p Hm Hd Hdec Hpos)
    as (ps & Hps & Hcells).
  rewrite Hcells in Hc. exists ps. split; [exact Hps | ].
  destruct (format_price_change _) as [cs | e]; cbn in Hc; congruence.
Qed.

(** X15.  The price cell of a positive decimal price [p] is a dollar
    sign, the integer part in groups of three digits set off by commas, a
    point and exactly two decimals: the number shown is [n] hundredths,
    where [n] is within one half of [100 * p]. *)
Theorem price_cell_is_rounded_currency (m d : gmap string pyval)
    (coin_id : string) (price : pyval) (p : Q) (price_str change_str : string) :
  m !! coin_id = Some (PDict d) ->
  d !! "usd" = Some price -> decimal price p -> (0 < p)%Q ->
  quote_cells (PDict m) coin_id = Ok (price_str, change_str) ->
  exists n : Z,
    price_str = "$" +:+ group3 (pretty (n / 100)) +:+ "."
                    +:+ pretty (n / 10 mod 10) +:+ pretty (n mod 10) /\
    0 <= n /\ (Qabs (inject_Z n - 100 * p) <= 1 # 2)%Q.
Proof.
  intros Hm Hd Hdec Hpos Hc.
  destruct (quote_cells_price _ _ _ _ _ _ _ Hm Hd Hdec Hpos Hc) as (text & Ht & ->).
  destruct (format_2f_positive true price p Hdec Hpos) as (n & Hn & H0 & Hb).
  exists n. split; [ | auto]. rewrite Hn in Ht. now injection Ht as <-.
Qed.

Lemma price_cell_is_rounded_currency_witness :
  exists n : Z,
    "$65,000.50" = "$" +:+ group3 (pretty (n / 100)) +:+ "."
                       +:+ pretty (n / 10 mod 10) +:+ pretty (n mod 10) /\
    0 <= n /\
    (Qabs (inject_Z n - 100 * magnitude 8933600695156736 (-37)) <= 1 # 2)%Q.
Proof.
  apply (price_cell_is_rounded_currency
           Sample.quotes Sample.bitcoin_quote "bitcoin" Sample.price_65000_5
           (magnitude 8933600695156736 (-37)) "$65,000.50"
           (change_text false 123)).
  - reflexivity.
  - reflexivity.
  - split; [apply number_float; reflexivity | exact I].
  - reflexivity.
  - vm_compute. reflexivity.
Defined.

(** X16.  An integer price, as the service sends it for a round amount,
    is shown exactly: for [0 < z <= 2^53] the price cell is the dollar
    sign, [z] with its thousands separators, and ".00". *)
Theorem integer_price_is_shown_exactly (m d : gmap string pyval)
    (coin_id : string) (z : Z) (price_str change_str : string) :
  m !! coin_id = Some (PDict d) ->
  d !! "usd" = Some (PInt z) -> 0 < z <= 2 ^ 53 ->
  quote_cells (PDict m) coin_id = Ok (price_str, change_str) ->
  price_str = "$" +:+ group3 (pretty z) +:+ ".00".
Proof.
  intros Hm Hd Hz Hc.
  assert (Hdec : decimal (PInt z) (inject_Z z))
    by (split; [constructor | cbn; lia]).
  assert (Hpos : (0 < inject_Z z)%Q) by (unfold Qlt; cbn; lia).
  destruct (quote_cells_price _ _ _ _ _ _ _ Hm Hd Hdec Hpos Hc) as (text & Ht & ->).
  destruct (format_2f_positive true (PInt z) _ Hdec Hpos) as (n & Hn & H0 & Hb).
  rewrite Hn in Ht. injection Ht as <-.
  assert (n = 100 * z) as ->.
  { unfold Qle, Qabs, Qminus, Qplus, Qmult, Qopp, inject_Z in Hb.
    cbn [Qnum Qden] in Hb. lia. }
  unfold fixed2.
  replace (100 * z / 100) with z
    by (rewrite Z.mul_comm, Z.div_mul; lia).
  replace (100 * z mod 10) with 0
    by (replace (100 * z) with (10 * z * 10) by lia; rewrite Z.mod_mul; lia).
  replace (100 * z / 10) with (z * 10)
    by (replace (100 * z) with (z * 10 * 10) by lia; rewrite Z.div_mul; lia).
  rewrite Z.mod_mul by lia.
  reflexivity.
Qed.

Lemma integer_price_is_shown_exactly_witness :
  let d : gmap string pyval := <["usd" := PInt 1234567]> ∅ in
  let m : gmap string pyval := <["bitcoin" := PDict d]> ∅ in
  "$1,234,567.00" = "$" +:+ group3 (pretty 1234567) +:+ ".00".
Proof.
  intros d m.
  apply (integer_price_is_shown_exactly m d "bitcoin" 1234567 "$1,234,567.00"
           (change_text true 0)).
  - reflexivity.
  - reflexivity.
  - vm_compute. split; [reflexivity | discriminate].
  - vm_compute. reflexivity.
Defined.

(** ** What makes a row raise *)

Lemma float_of_int_cases z :
  (exists f, float_of_int z = Ok f) \/
  (float_of_int z = Raise OverflowError /\ 2 ^ 53 < Z.abs z).
Proof.
  destruct (Z_le_gt_dec (Z.abs z) (2 ^ 53)) as [Hle | Hgt].
  - left. destruct (float_of_int_exact z Hle) as (f & _ & Hf & _). eauto.
  - unfold float_of_int.
    destruct (binary_normalize 53 1024 z 0 false); eauto.
    right. split; [reflexivity | lia].
Qed.

Lemma format_2f_cases comma v :
  is_numeric v = true ->
  (exists s, format_2f comma v = Ok s) \/
  (format_2f comma v = Raise OverflowError /\
   exists z, v = PInt z /\ 2 ^ 53 < Z.abs z).
Proof.
  destruct v as [ | b | z | f | s | l | d]; try discriminate; intros _.
  - left. destruct b; cbn; eauto.
  - cbn. destruct (float_of_int_cases z) as [[f ->] | [-> Hz]]; cbn; eauto.
  - left. cbn. eauto.
Qed.

Lemma format_price_change_cases change :
  (exists s, format_price_change change = Ok s) \/
  (format_price_change change = Raise TypeError /\ is_numeric change = false) \/
  (format_price_change change = Raise OverflowError /\
   exists z, change = PInt z /\ 2 ^ 53 < Z.abs z).
Proof.
  unfold format_price_change. cbv [mbind mret res_mbind res_ret res_bind].
  destruct change as [ | b | z | f | s | l | d]; cbn [ge_zero py_abs];
    try (right; left; split; reflexivity).
  - left. destruct b; cbn; eauto.
  - destruct (format_2f_cases false (PInt (Z.abs z)) eq_refl)
      as [[s ->] | [-> (z' & [= <-] & Hz)]]; [eauto | ].
    right. right. split; [reflexivity | ]. exists z. split; [reflexivity | lia].
  - left. cbn. eauto.
Qed.

(** X17.  The two cells of a row can only raise on a malformed Quote, and
    the exception tells how it is malformed: [AttributeError] when the
    entry of the asset is there but is no dict; [TypeError] when the
    price or the change is there but is no number; [OverflowError] when
    one of them is an integer beyond [2^53] that no float can take.
    Nothing else is ever raised, and a missing asset or a missing field
    raises nothing. *)
Theorem quote_cells_raises_on_malformed_only (m : gmap string pyval)
    (coin_id : string) (e : exn) :
  quote_cells (PDict m) coin_id = Raise e ->
  match e with
  | AttributeError => exists v, m !! coin_id = Some v /\ is_dict v = false
  | TypeError =>
      exists d field v,
        m !! coin_id = Some (PDict d) /\
        (field = "usd" \/ field = "usd_24h_change") /\
        d !! field = Some v /\ is_numeric v = false
  | OverflowError =>
      exists d field z,
        m !! coin_id = Some (PDict d) /\
        (field = "usd" \/ field = "usd_24h_change") /\
        d !! field = Some (PInt z) /\ 2 ^ 53 < Z.abs z
  | ValueError | KeyboardInterrupt => False
  end.
Proof.
  unfold quote_cells. cbv [dict_get mbind mret res_mbind res_ret res_bind].
  destruct (m !! coin_id) as [v | ] eqn:Hm.
  2: { rewrite !lookup_empty. discriminate. }
  destruct v as [ | b | z | f | s | l | d];
    try (intros [= <-]; eexists; split; [reflexivity | reflexivity]).
  assert (Hprice : forall price,
            (d !! "usd" = Some price \/ (d !! "usd" = None /\ price = PInt 0)) ->
            forall change,
            (d !! "usd_24h_change" = Some change \/
             (d !! "usd_24h_change" = None /\ change = PInt 0)) ->
            match gt_zero price with
            | Ok shown =>
                match (if shown
                       then match format_2f true price with
                            | Ok s => Ok ("$" +:+ s)
                            | Raise e => Raise e
                            end
                       else Ok "N/A") with
                | Ok price_str =>
                    match gt_zero price with
                    | Ok shown' =>
                        match (if shown' then format_price_change change
                               else Ok "N/A") with
                        | Ok change_str => Ok (price_str, change_str)
                        | Raise e => Raise e
                        end
                    | Raise e => Raise e
                    end
                | Raise e => Raise e
                end
            | Raise e => Raise e
            end = Raise e ->
            match e with
            | AttributeError => exists v, Some (PDict d) = Some v /\ is_dict v = false
            | TypeError =>
                exists d' field v,
                  Some (PDict d) = Some (PDict d') /\
                  (field = "usd" \/ field = "usd_24h_change") /\
                  d' !! field = Some v /\ is_numeric v = false
            | OverflowError =>
                exists d' field z,
                  Some (PDict d) = Some (PDict d') /\
                  (field = "usd" \/ field = "usd_24h_change") /\
                  d' !! field = Some (PInt z) /\ 2 ^ 53 < Z.abs z
            | ValueError | KeyboardInterrupt => False
            end).
  { intros price Hp change Hch.
    destruct (is_numeric price) eqn:Hnum.
    - assert (Hgt : exists shown, gt_zero price = Ok shown)
        by (destruct price; try discriminate; cbn; eauto).
      destruct Hgt as [shown ->]. destruct shown; [ | discriminate].
      destruct (format_2f_cases true price Hnum) as [[s ->] | [-> (z & -> & Hz)]].
      + destruct (format_price_change_cases change)
          as [[s' ->] | [[-> Hn] | [-> (z & -> & Hz)]]]; [discriminate | | ].
        * intros [= <-]. destruct Hch as [Hch | [_ ->]]; [ | discriminate].
          exists d, "usd_24h_change", change. auto.
        * intros [= <-]. destruct Hch as [Hch | [_ [= ->]]]; [ | cbn in Hz; lia].
          exists d, "usd_24h_change", z. auto.
      + intros [= <-]. destruct Hp as [Hp | [_ [= ->]]]; [ | cbn in Hz; lia].
        exists d, "usd", z. auto.
    - assert (Hgt : gt_zero price = Raise TypeError)
        by (destruct price; try discriminate; reflexivity).
      rewrite Hgt. intros [= <-]. destruct Hp as [Hp | [_ ->]]; [ | discriminate].
      exists d, "usd", price. auto. }
  destruct (d !! "usd") as [price | ] eqn:Hp;
    destruct (d !! "usd_24h_change") as [change | ] eqn:Hch;
    apply Hprice; auto.
Qed.

Lemma quote_cells_raises_on_malformed_only_witness :
  let m : gmap string pyval := <["bitcoin" := PInt 5]> ∅ in
  exists v, m !! "bitcoin" = Some v /\ is_dict v = false.
Proof.
  intros m.
  apply (quote_cells_raises_on_malformed_only m "bitcoin" AttributeError).
  reflexivity.
Defined.

(** ** A table cut short *)

Lemma for_each_good_then prices good others :
  Forall (fun id => exists p c, quote_cells prices id = Ok (p, c)) good ->
  exists rows,
    length rows = length good /\
    Forall2 (fun id row => exists p c, quote_cells prices id = Ok (p, c) /\
                                       row = row_line id p c) good rows /\
    for_each (good ++ others) (display_row prices) =
      (map Print rows ++ fst (for_each others (display_row prices)),
       snd (for_each others (display_row prices))).
Proof.
  induction 1 as [ | id good (p & c & Hc) _ (rows & Hlen & Hrows & IH)].
  - exists []. cbn. split; [reflexivity | split; [constructor | ]].
    now destruct (for_each others _).
  - exists (row_line id p c :: rows). split; [cbn; now rewrite Hlen | split].
    + constructor; eauto.
    + cbn [app]. rewrite for_each_cons, (display_row_ok _ _ _ _ Hc), IH.
      reflexivity.
Qed.

(** X18.  A malformed Quote cuts the table short at its row.  When the
    cells of the identifiers before it are fine and those of one
    identifier raise, [display] has cleared the screen, printed the
    header and the rows of the identifiers before, in order, and then
    raises that exception: the row itself, the rows after it, the closing
    rule and the timestamp are not printed. *)
Theorem display_stops_at_malformed_row (self : CryptoDashboard) (prices : pyval)
    (now : string) (good rest : list string) (bad : string) (e : exn) :
  coins (config self) = good ++ bad :: rest ->
  Forall (fun id => exists p c, quote_cells prices id = Ok (p, c)) good ->
  quote_cells prices bad = Raise e ->
  exists rows,
    Forall2 (fun id row => exists p c, quote_cells prices id = Ok (p, c) /\
                                       row = row_line id p c) good rows /\
    display self prices now =
      ([Clear; Print rule; Print header; Print rule] ++ map Print rows, Raise e).
Proof.
  intros Hcoins Hgood Hbad.
  destruct (for_each_good_then prices good (bad :: rest) Hgood)
    as (rows & _ & Hrows & Hfe).
  exists rows. split; [exact Hrows | ].
  assert (Hrow : display_row prices bad = ([], Raise e))
    by (unfold display_row; now rewrite Hbad).
  rewrite display_shape, Hcoins, Hfe, for_each_cons, Hrow. cbn [fst snd].
  now rewrite app_nil_r.
Qed.

Lemma display_stops_at_malformed_row_witness :
  let self := Sample.dashboard ["bitcoin"; "ethereum"; "solana"] 10 in
  let prices := PDict (<["ethereum" := PStr "n/a"]> Sample.quotes) in
  exists rows,
    Forall2 (fun id row => exists p c, quote_cells prices id = Ok (p, c) /\
                                       row = row_line id p c) ["bitcoin"] rows /\
    display self prices "2024-05-01 12:00:00" =
      ([Clear; Print rule; Print header; Print rule] ++ map Print rows,
       Raise AttributeError).
Proof.
  intros self prices.
  apply (display_stops_at_malformed_row self prices "2024-05-01 12:00:00"
           ["bitcoin"] ["solana"] "ethereum" AttributeError).
  - reflexivity.
  - repeat constructor. eexists _, _. vm_compute. reflexivity.
  - vm_compute. reflexivity.
Defined.

(** ** A rendered cycle and the terminal *)

Lemma screen_from_prints shown lines :
  screen_from shown (map Print lines) = shown ++ lines.
Proof.
  revert shown. induction lines as [ | l lines IH]; intros shown; cbn.
  - now rewrite app_nil_r.
  - rewrite IH. now rewrite <- app_assoc.
Qed.

Lemma screen_from_sleep shown secs interrupted :
  screen_from shown (fst (sleep secs interrupted)) = shown.
Proof.
  destruct (sleep_shape secs interrupted) as [(e & -> & _) | [-> | ->]]; reflexivity.
Qed.

(** X19.  A rendered cycle replaces whatever the terminal showed.  When
    the response carries a QuoteSet that is not empty and whose Quotes
    hold decimals or nothing, the terminal shows after the cycle the
    rule, the header, the rule, one row per configured identifier in
    order, the rule, the timestamp of this cycle and the exit hint, and
    nothing else: earlier tables and the retry notices stacked since are
    gone. *)
Theorem rendered_cycle_replaces_screen (self : CryptoDashboard) (c : cycle_env)
    (code : Z) (m : gmap string pyval) (before : list event) :
  net c = NetResponse code (Parsed (PDict m)) ->
  code < 400 \/ 600 <= code ->
  m <> ∅ -> quoteset_ok m ->
  exists rows,
    Forall2 (fun coin_id row =>
               exists price_str change_str,
                 quote_cells (PDict m) coin_id = Ok (price_str, change_str) /\
                 row = row_line coin_id price_str change_str)
            (coins (config self)) rows /\
    screen (before ++ fst (cycle self c)) =
      [rule; header; rule] ++ rows ++
      [rule; nl +:+ "Last updated: " +:+ now c; "Press Ctrl+C to exit"].
Proof.
  intros Hn Hc Hne Hok.
  destruct (for_each_rows m (coins (config self)) Hok) as (rows & Hfe & Hrows).
  exists rows. split; [exact Hrows | ].
  assert (Hf : fetch_prices (api self) (coins (config self)) (net c) =
               ([request self], Ok (PDict m))).
  { rewrite Hn. apply fetch_prices_parsed.
    destruct (Z.leb_spec 400 code), (Z.ltb_spec code 600); cbn; lia || reflexivity. }
  assert (Ht : truthy (PDict m) = true)
    by (cbn; now rewrite bool_decide_eq_false_2).
  rewrite cycle_unfold, Hf, Ht, display_shape, Hfe. cbn [fst snd].
  unfold screen. rewrite screen_from_app. cbn [app screen_from request].
  rewrite !screen_from_app, screen_from_prints. cbn [screen_from app].
  rewrite screen_from_sleep, <- !app_assoc. reflexivity.
Qed.

Lemma rendered_cycle_replaces_screen_witness :
  let self := Sample.dashboard ["bitcoin"; "ethereum"] 10 in
  let c := Sample.answers (PDict Sample.quotes) in
  let before := failed_cycle self "Request timed out" in
  exists rows,
    Forall2 (fun coin_id row =>
               exists price_str change_str,
                 quote_cells (PDict Sample.quotes) coin_id
                   = Ok (price_str, change_str) /\
                 row = row_line coin_id price_str change_str)
            ["bitcoin"; "ethereum"] rows /\
    screen (before ++ fst (cycle self c)) =
      [rule; header; rule] ++ rows ++
      [rule; nl +:+ "Last updated: " +:+ "2024-05-01 12:00:00";
       "Press Ctrl+C to exit"].
Proof.
  intros self c before.
  apply (rendered_cycle_replaces_screen self c 200 Sample.quotes before).
  - reflexivity.
  - left. reflexivity.
  - intros H. apply (f_equal (fun q : gmap string pyval => q !! "bitcoin")) in H.
    vm_compute in H. discriminate H.
  - exact sample_quotes_ok.
Defined.
